(** * The LangChain service of the reporting agent, embedded in Rocq

    The TypeScript class [LangChainService] (backend) resolves a database
    connection, selects a language-model backend and builds the
    [excel_export] tool.  This development embeds those methods as Rocq
    functions and proves properties of them.

    Conventions of the embedding:
    - a JavaScript string is the list of its code units; the units modelled
      are those below 256, carried as [ascii];
    - [undefined] is [None] where a TypeScript parameter or property is
      optional;
    - asynchronous code is run to completion: an [await] is a step of the
      effect monad [Eff], whose state is the trace of calls made to the
      outside (database driver, object storage, timers);
    - what the outside answers is read from an explicit record of oracles
      ([Database], [Runtime]);
    - calls to [console] have no bearing on results or on outside calls and
      are left out of traces. *)

From Stdlib Require Import ZArith NArith Ascii String List Lia DecimalString.
From stdpp Require Import base list gmap strings.

Set Default Proof Using "Type".

(** ** JavaScript strings *)

Abbreviation jsstring := (list ascii) (only parsing).

Module Js.

(** A literal. *)
Definition str (s : string) : jsstring := list_ascii_of_string s.
Arguments str s%_string.

(** The double quote, which literals of this file do not contain. *)
Definition dq : ascii := ascii_of_N 34.

(** The one-unit string ['\n']. *)
Definition lineFeed : jsstring := [ascii_of_N 10].

(** [s || d] on strings: the empty string is falsy. *)
Definition orElse (s d : jsstring) : jsstring :=
  match s with
  | [] => d
  | _ :: _ => s
  end.

(** [s || d] where [s] may be [undefined]. *)
Definition orDefault (s : option jsstring) (d : jsstring) : jsstring :=
  match s with
  | None => d
  | Some s => orElse s d
  end.

(** Truthiness of a string used as a condition. *)
Definition truthy (s : jsstring) : bool :=
  match s with
  | [] => false
  | _ :: _ => true
  end.

(** White space and line terminators of ECMAScript among the code units
    below 256: TAB, LF, VT, FF, CR, SP and NBSP. *)
Definition isWhiteSpace (c : ascii) : bool :=
  match N_of_ascii c with
  | 9 | 10 | 11 | 12 | 13 | 32 | 160 => true
  | _ => false
  end%N.

Fixpoint dropWhile (p : ascii -> bool) (s : jsstring) : jsstring :=
  match s with
  | [] => []
  | c :: r => if p c then dropWhile p r else s
  end.

Definition trimStart (s : jsstring) : jsstring := dropWhile isWhiteSpace s.

Definition trimEnd (s : jsstring) : jsstring :=
  reverse (dropWhile isWhiteSpace (reverse s)).

(** [String.prototype.trim] *)
Definition trim (s : jsstring) : jsstring := trimEnd (trimStart s).

(** [s.slice(0, n)] for a non-negative literal [n]. *)
Definition slice0 (n : nat) (s : jsstring) : jsstring := take n s.

(** Lower case of one code unit below 256: A-Z and the Latin-1 capitals
    (U+00C0-U+00DE except the multiplication sign). *)
Definition toLowerUnit (c : ascii) : ascii :=
  let n := N_of_ascii c in
  if ((65 <=? n) && (n <=? 90)
      || (192 <=? n) && (n <=? 222) && negb (n =? 215))%N
  then ascii_of_N (n + 32)
  else c.

Definition toLowerCase (s : jsstring) : jsstring := map toLowerUnit s.

(** [s.endsWith(t)] *)
Definition endsWith (s t : jsstring) : bool := bool_decide (suffix t s).

(** [s.startsWith(t)] *)
Definition startsWith (s t : jsstring) : bool := bool_decide (prefix t s).

(** [s.split(sep)] for a non-empty separator: [skip] counts the code units
    of a separator just matched that are still to be passed over.  The
    result always has at least one element. *)
Fixpoint splitFrom (sep : jsstring) (skip : nat) (s : jsstring)
  : list jsstring :=
  match s with
  | [] => [[]]
  | c :: r =>
      match skip with
      | S k => splitFrom sep k r
      | O =>
          if startsWith s sep
          then [] :: splitFrom sep (length sep - 1) r
          else match splitFrom sep 0 r with
               | [] => [[c]]
               | h :: t => (c :: h) :: t
               end
      end
  end.

Definition split (sep s : jsstring) : list jsstring :=
  match sep with
  | [] => map (fun c => [c]) s
  | _ :: _ => splitFrom sep 0 s
  end.

(** [xs[0]] *)
Definition first (xs : list jsstring) : option jsstring := head xs.

(** Template interpolation of an integral number below 1e21. *)
Definition ofInt (z : Z) : jsstring :=
  str (NilZero.string_of_int (Z.to_int z)).

(** [g.replace(/[...]/g, r)] for a character class [cls] and a one-unit
    replacement. *)
Definition replaceClass (cls : ascii -> bool) (r : ascii) (s : jsstring)
  : jsstring :=
  map (fun c => if cls c then r else c) s.

(** Thrown values: [Error] objects with a name and a message. *)
Record Error := mkError { err_name : jsstring; err_message : jsstring }.

(** [new Error(msg)] *)
Definition newError (msg : jsstring) : Error :=
  {| err_name := str "Error"; err_message := msg |}.

(** [String(e)], that is [Error.prototype.toString]. *)
Definition errorToString (e : Error) : jsstring :=
  match err_name e, err_message e with
  | [], m => m
  | n, [] => n
  | n, m => n ++ str ": " ++ m
  end.

(** The values a tool argument can hold at run time.  Numbers are carried
    as integers or NaN: the code observes their truthiness only. *)
#[warnings="-register-all"]
Inductive Value :=
| Undefined
| Null
| Bool (b : bool)
| Number (z : Z)
| NaN
| Str (s : jsstring)
| Array (xs : list Value)
| Object (fields : list (jsstring * Value)).

(** [!v] is [negb (valueTruthy v)]. *)
Definition valueTruthy (v : Value) : bool :=
  match v with
  | Undefined | Null | NaN => false
  | Bool b => b
  | Number z => negb (z =? 0)%Z
  | Str s => truthy s
  | Array _ | Object _ => true
  end.

(** [Array.isArray(v)] *)
Definition isArray (v : Value) : bool :=
  match v with
  | Array _ => true
  | _ => false
  end.

(** [v.length] of an array. *)
Definition arrayLength (v : Value) : nat :=
  match v with
  | Array xs => length xs
  | _ => 0
  end.

(** One code unit inside [JSON.stringify] of a string. *)
Definition hexDigit (n : N) : ascii :=
  ascii_of_N (if (n <? 10)%N then 48 + n else 87 + n).

Definition jsonEscapeUnit (c : ascii) : jsstring :=
  let n := N_of_ascii c in
  match n with
  | 8 => str "\b"
  | 9 => str "\t"
  | 10 => str "\n"
  | 12 => str "\f"
  | 13 => str "\r"
  | 34 => [ascii_of_N 92; dq]
  | 92 => str "\\"
  | _ =>
      if (n <? 32)%N
      then str "\u00" ++ [hexDigit (n / 16); hexDigit (n mod 16)]
      else [c]
  end%N.

(** [JSON.stringify(s)] of a string. *)
Definition jsonString (s : jsstring) : jsstring :=
  [dq] ++ concat (map jsonEscapeUnit s) ++ [dq].

End Js.

(** ** The outside world and the effect monad *)

Module Eff.
Import Js.

(** TypeORM data-source options, as the service fills them in. *)
Record DataSourceOptions := mkDataSourceOptions {
  ds_type : jsstring;
  ds_host : jsstring;
  ds_port : Z;
  ds_username : jsstring;
  ds_password : jsstring;
  ds_database : jsstring }.

(** [SqlDatabaseOptionsParams]: an absent property is [None]. *)
Record SqlDatabaseOptionsParams := mkOptionsParams {
  appDataSourceOptions : DataSourceOptions;
  ignoreTables : option (list jsstring);
  includesTables : option (list jsstring) }.

(** The handle [SqlDatabase.fromOptionsParams] resolves to: the options it
    was opened with and the tables the library found in the database. *)
Record SqlDatabase := mkSqlDatabase {
  sd_params : SqlDatabaseOptionsParams;
  sd_allTables : list jsstring }.

(** A Node [Buffer] holding a serialized workbook.  The service reads its
    [length] and hands it on; the bytes stay opaque. *)
Record Buffer := mkBuffer { buffer_length : N }.

Record PutObjectCommand := mkPutObjectCommand {
  Bucket : jsstring;
  Key : jsstring;
  Body : Buffer;
  ContentType : jsstring;
  CacheControl : jsstring;
  ACL : jsstring }.

(** Calls made to the outside, in the order they are made. *)
Inductive Event :=
| EvFromOptionsParams (p : SqlDatabaseOptionsParams)
| EvRun (p : SqlDatabaseOptionsParams) (query : jsstring)
| EvS3Send (cmd : PutObjectCommand)
| EvSetTimeout (ms : Z).

Definition isS3Send (e : Event) : bool :=
  match e with
  | EvS3Send _ => true
  | _ => false
  end.

Definition isConnect (e : Event) : bool :=
  match e with
  | EvFromOptionsParams _ => true
  | _ => false
  end.

Definition isSetTimeout (e : Event) : bool :=
  match e with
  | EvSetTimeout _ => true
  | _ => false
  end.

(** Number of uploads sent so far. *)
Definition uploadsIn (tr : list Event) : nat :=
  length (List.filter isS3Send tr).

(** The database server together with the driver and the [SqlDatabase]
    class of the library, none of which belongs to this repository:
    [db_connect p] is what [SqlDatabase.fromOptionsParams(p)] does (it
    throws, or finds the listed tables), [db_run p q] is what [run(q)]
    answers on the handle opened with [p]. *)
Record Database := mkDatabase {
  db_connect : SqlDatabaseOptionsParams -> Error + list jsstring;
  db_run : SqlDatabaseOptionsParams -> jsstring -> Error + jsstring }.

(** What the export tool reads from its surroundings: [process.env], the
    clock at the two places it is read, the SheetJS serializer (which may
    throw) and the answer of object storage to the k-th upload ([None]:
    the upload went through). *)
Record Runtime := mkRuntime {
  env : gmap string jsstring;
  dateIso : jsstring;
  dateMs : Z;
  xlsxWrite : Value -> jsstring -> Error + Buffer;
  s3Send : nat -> PutObjectCommand -> option Error }.

(** How a computation ends.  [OutOfFuel] is the embedding's own: a loop
    was cut off before it finished. *)
Inductive Outcome (A : Type) :=
| Returned (a : A)
| Thrown (e : Error)
| OutOfFuel.
Arguments Returned {A} a.
Arguments Thrown {A} e.
Arguments OutOfFuel {A}.

Definition Eff (A : Type) : Type := list Event -> Outcome A * list Event.

Definition ret {A} (a : A) : Eff A := fun tr => (Returned a, tr).

Definition throw {A} (e : Error) : Eff A := fun tr => (Thrown e, tr).

Definition outOfFuel {A} : Eff A := fun tr => (OutOfFuel, tr).

Definition bind {A B} (c : Eff A) (k : A -> Eff B) : Eff B :=
  fun tr =>
    match c tr with
    | (Returned a, tr') => k a tr'
    | (Thrown e, tr') => (Thrown e, tr')
    | (OutOfFuel, tr') => (OutOfFuel, tr')
    end.

(** [try { c } catch (e) { h e }] *)
Definition tryCatch {A} (c : Eff A) (h : Error -> Eff A) : Eff A :=
  fun tr =>
    match c tr with
    | (Thrown e, tr') => h e tr'
    | r => r
    end.

Definition emit (e : Event) : Eff unit := fun tr => (Returned tt, tr ++ [e]).

Definition liftSum {A} (r : Error + A) : Eff A :=
  match r with
  | inl e => throw e
  | inr a => ret a
  end.

(** Runs a computation from the start of a turn. *)
Definition exec {A} (c : Eff A) : Outcome A * list Event := c [].

End Eff.

Declare Scope eff_scope.
Delimit Scope eff_scope with eff.
Notation "x <- c ;; k" := (Eff.bind c (fun x => k))
  (at level 100, c at next level, right associativity) : eff_scope.
Notation "c ;;; k" := (Eff.bind c (fun _ => k))
  (at level 100, right associativity) : eff_scope.

(** ** The service *)

Module LangChainService.
Import Js Eff.
Local Open Scope eff_scope.

(** *** Model backends *)

Record ChatOpenAI := mkChatOpenAI {
  openai_model : jsstring;
  openai_temperature : Z;
  openai_apiKey : jsstring;
  openai_provider : jsstring }.

Record ChatAnthropic := mkChatAnthropic {
  anthropic_model : jsstring;
  anthropic_temperature : Z;
  anthropic_apiKey : jsstring;
  anthropic_provider : jsstring }.

(** [ChatOpenAI | ChatAnthropic] *)
Inductive LLM :=
| OpenAI (m : ChatOpenAI)
| Anthropic (m : ChatAnthropic).

(** The fields of the class that hold backends; a field never assigned is
    [None]. *)
Record Service := mkService {
  openaiLLM : option ChatOpenAI;
  anthropicLLM : option ChatAnthropic }.

(** [process.env.NAME] used as a condition and then as a value. *)
Definition envTruthy (e : gmap string jsstring) (name : string)
  : option jsstring :=
  match e !! name with
  | Some v => if truthy v then Some v else None
  | None => None
  end.

Definition initializeLLMs (e : gmap string jsstring) : Service :=
  {| openaiLLM :=
       match envTruthy e "OPENAI_API_KEY" with
       | Some openaiApiKey =>
           Some {| openai_model := str "gpt-4.1-mini-2025-04-14";
                   openai_temperature := 0;
                   openai_apiKey := openaiApiKey;
                   openai_provider := str "openai" |}
       | None => None
       end;
     anthropicLLM :=
       match envTruthy e "ANTHROPIC_API_KEY" with
       | Some anthropicApiKey =>
           Some {| anthropic_model := str "claude-3-haiku-20240307";
                   anthropic_temperature := 0;
                   anthropic_apiKey := anthropicApiKey;
                   anthropic_provider := str "anthropic" |}
       | None => None
       end |}.

(** [this.openaiLLM || this.anthropicLLM]; [None] is [undefined]. *)
Definition firstAvailable (svc : Service) : option LLM :=
  match openaiLLM svc with
  | Some m => Some (OpenAI m)
  | None =>
      match anthropicLLM svc with
      | Some m => Some (Anthropic m)
      | None => None
      end
  end.

Definition getLLM (svc : Service) (provider : option jsstring) : option LLM :=
  match provider with
  | Some p =>
      if decide (p = str "openai") then
        match openaiLLM svc with
        | Some m => Some (OpenAI m)
        | None => firstAvailable svc
        end
      else if decide (p = str "anthropic") then
        match anthropicLLM svc with
        | Some m => Some (Anthropic m)
        | None => firstAvailable svc
        end
      else firstAvailable svc
  | None => firstAvailable svc
  end.

Record LLMDescriptor := mkLLMDescriptor {
  llm_id : jsstring;
  llm_name : jsstring;
  llm_provider : jsstring;
  llm_model : jsstring;
  llm_isAvailable : bool }.

Definition getAvailableLLMs (svc : Service) : list LLMDescriptor :=
  let llms := [] in
  let llms :=
    match openaiLLM svc with
    | Some _ =>
        llms ++ [ {| llm_id := str "openai";
                     llm_name := str "OpenAI GPT-4.1 Mini";
                     llm_provider := str "openai";
                     llm_model := str "gpt-4.1-mini-2025-04-14";
                     llm_isAvailable := true |} ]
    | None => llms
    end in
  let llms :=
    match anthropicLLM svc with
    | Some _ =>
        llms ++ [ {| llm_id := str "anthropic";
                     llm_name := str "Anthropic Claude 3 Haiku";
                     llm_provider := str "anthropic";
                     llm_model := str "claude-3-haiku-20240307";
                     llm_isAvailable := true |} ]
    | None => llms
    end in
  llms.

(** *** Connection resolver *)

Record UserDatasourceConfig := mkUserDatasourceConfig {
  host : jsstring;
  port : Z;
  database : jsstring;
  username : jsstring;
  password : jsstring;
  type : jsstring }.

Definition getTablesQuery (dbType : jsstring) : jsstring :=
  if decide (dbType = str "postgres") then
    str "
          SELECT table_name 
          FROM information_schema.tables 
          WHERE table_schema = 'public' 
          AND table_type = 'BASE TABLE'
        "
  else if decide (dbType = str "mysql") then
    str "
          SELECT table_name 
          FROM information_schema.tables 
          WHERE table_schema = DATABASE()
          AND table_type = 'BASE TABLE'
        "
  else if decide (dbType = str "sqlite") then
    str "
          SELECT name as table_name 
          FROM sqlite_master 
          WHERE type = 'table'
        "
  else if decide (dbType = str "mssql") then
    str "
          SELECT table_name 
          FROM information_schema.tables 
          WHERE table_type = 'BASE TABLE'
        "
  else
    str "
          SELECT table_name 
          FROM information_schema.tables 
          WHERE table_schema = 'public' 
          AND table_type = 'BASE TABLE'
        ".

Definition getTestQuery (dbType : jsstring) : jsstring :=
  if decide (dbType = str "postgres") then str "SELECT 1 as test"
  else if decide (dbType = str "mysql") then str "SELECT 1 as test"
  else if decide (dbType = str "sqlite") then str "SELECT 1 as test"
  else if decide (dbType = str "mssql") then str "SELECT 1 as test"
  else str "SELECT 1 as test".

(** The chain applied to [tablesResult] inside the [try] block. *)
Definition parseExistingTables (tablesResult : jsstring) : list jsstring :=
  let lines := split lineFeed tablesResult in
  let lines := drop 1 lines in
  let lines := map (fun line => trim line) lines in
  let lines :=
    List.filter (fun line => truthy line && bool_decide (line <> [])) lines in
  let tables :=
    map (fun line => trim <$> first (split (str "|") line)) lines in
  let tables :=
    List.filter (fun table =>
                   match table with
                   | Some t => truthy t
                   | None => false
                   end) tables in
  omap id tables.

Definition dataSourceOptions (config : UserDatasourceConfig)
  : DataSourceOptions :=
  {| ds_type := type config;
     ds_host := host config;
     ds_port := port config;
     ds_username := username config;
     ds_password := password config;
     ds_database := database config |}.

(** [await SqlDatabase.fromOptionsParams(p)] *)
Definition fromOptionsParams (db : Database) (p : SqlDatabaseOptionsParams)
  : Eff SqlDatabase :=
  emit (EvFromOptionsParams p) ;;;
  tables <- liftSum (db_connect db p) ;;
  ret {| sd_params := p; sd_allTables := tables |}.

(** [await handle.run(query)] *)
Definition run (db : Database) (handle : SqlDatabase) (query : jsstring)
  : Eff jsstring :=
  emit (EvRun (sd_params handle) query) ;;;
  liftSum (db_run db (sd_params handle) query).

Definition configRequiredMessage : jsstring :=
  str "Database connection configuration is required. Please provide valid connection details.".

(** The table list gathered by the first phase. *)
Definition listExistingTables (db : Database) (config : UserDatasourceConfig)
  (basicSqlDatabase : SqlDatabase) : Eff (list jsstring) :=
  tryCatch
    (let tablesQuery := getTablesQuery (type config) in
     tablesResult <- run db basicSqlDatabase tablesQuery ;;
     ret (parseExistingTables tablesResult))
    (fun _ => ret []).

(** [basicOptions]: no table is ignored on the first connection. *)
Definition basicOptionsOf (config : UserDatasourceConfig)
  : SqlDatabaseOptionsParams :=
  {| appDataSourceOptions := dataSourceOptions config;
     ignoreTables := Some [];
     includesTables := None |}.

(** [options] of the final connection: the data-source options alone. *)
Definition optionsOf (config : UserDatasourceConfig)
  : SqlDatabaseOptionsParams :=
  {| appDataSourceOptions := dataSourceOptions config;
     ignoreTables := None;
     includesTables := None |}.

Definition getSqlDatabase (db : Database)
  (connectionConfig : option UserDatasourceConfig) : Eff SqlDatabase :=
  match connectionConfig with
  | None => throw (newError configRequiredMessage)
  | Some config =>
      let basicOptions := basicOptionsOf config in
      basicSqlDatabase <- fromOptionsParams db basicOptions ;;
      existingTables <- listExistingTables db config basicSqlDatabase ;;
      let options := optionsOf config in
      sqlDatabase <- fromOptionsParams db options ;;
      let testQuery := getTestQuery (type config) in
      run db sqlDatabase testQuery ;;;
      ret sqlDatabase
  end.

(** The tables a handle offers to its users, as the library class computes
    them from its options: all tables found, kept to [includesTables] when
    that list is non-empty, less [ignoreTables]. *)
Definition visibleTables (handle : SqlDatabase) : list jsstring :=
  let includes := default [] (includesTables (sd_params handle)) in
  let ignored := default [] (ignoreTables (sd_params handle)) in
  List.filter
    (fun t =>
       (bool_decide (includes = []) || bool_decide (t ∈ includes))
       && negb (bool_decide (t ∈ ignored)))
    (sd_allTables handle).

End LangChainService.

(** ** The [excel_export] tool *)

Module ExcelExport.
Import Js Eff.
Local Open Scope eff_scope.

(** Arguments of the tool function, when an argument object is passed;
    [data] is whatever arrives at run time.  A call without an argument
    object is [ExportInvocation.funcCalled] at [None]. *)
Record Args := mkArgs {
  data : Value;
  filename : option jsstring;
  sheetName : option jsstring }.

(** The class [[:\\/?*\[\]]] *)
Definition invalidSheetUnit (c : ascii) : bool :=
  match N_of_ascii c with
  | 58 | 92 | 47 | 63 | 42 | 91 | 93 => true
  | _ => false
  end%N.

(** [(name || 'Report').replace(invalid, ' ').trim()] *)
Definition cleanedSheetName (name : option jsstring) : jsstring :=
  trim (replaceClass invalidSheetUnit " "%char
          (orDefault name (str "Report"))).

Definition sanitizeSheetName (name : option jsstring) : jsstring :=
  let cleaned := cleanedSheetName name in
  orElse (slice0 31 cleaned) (str "Report").

(** The class [[^a-zA-Z0-9._-]] *)
Definition unsafeFileUnit (c : ascii) : bool :=
  let n := N_of_ascii c in
  negb ((97 <=? n) && (n <=? 122)
        || (65 <=? n) && (n <=? 90)
        || (48 <=? n) && (n <=? 57)
        || (n =? 46) || (n =? 95) || (n =? 45))%N.

(** [base.replace(/[^a-zA-Z0-9._-]/g, '_').slice(0, 200)] *)
Definition safeFileUnits (base : jsstring) : jsstring :=
  slice0 200 (replaceClass unsafeFileUnit "_"%char base).

(** [now] is what [new Date().getTime()] answers. *)
Definition sanitizeFilename (now : Z) (name : jsstring) : jsstring :=
  let base :=
    if endsWith (toLowerCase name) (str ".xlsx")
    then default (str "undefined") (first (split (str ".xlsx") name))
           ++ str "_" ++ ofInt now ++ str ".xlsx"
    else name ++ str "_" ++ ofInt now ++ str ".xlsx" in
  safeFileUnits base.

(** [process.env.PG_DATABASE || 'db'] *)
Definition dataSourceLabel (e : gmap string jsstring) : jsstring :=
  orDefault (e !! "PG_DATABASE") (str "db").

Definition objectKeyOf (e : gmap string jsstring) (finalFilename : jsstring)
  : jsstring :=
  str "reports/" ++ dataSourceLabel e ++ str "/" ++ finalFilename.

Definition noDataMessage : jsstring :=
  str "Error: No data parameter provided. You must pass the actual query results as the "
  ++ [dq] ++ str "data" ++ [dq]
  ++ str " parameter. First execute a SQL query to get results, then pass those results to this tool.".

Definition notArrayMessage : jsstring :=
  str "Error: Data must be a non-empty array of objects. Each object should represent a row from your SQL query results. Example: [{"
  ++ [dq] ++ str "column1" ++ [dq] ++ str ": " ++ [dq] ++ str "value1" ++ [dq]
  ++ str ", " ++ [dq] ++ str "column2" ++ [dq] ++ str ": " ++ [dq]
  ++ str "value2" ++ [dq] ++ str "}]".

(** [x.toFixed(2)] for [x = len / (1024 * 1024)].  The quotient of an
    integer below 2^53 by a power of two is exact in binary floating
    point, and [toFixed] picks the integer [n] nearest to [100 x], the
    larger one on a tie, and prints [n / 100] with two decimals. *)
Definition fileSizeMBtoFixed2 (len : N) : jsstring :=
  let n := ((len * 100 + 524288) / 1048576)%N in
  let frac := (n mod 100)%N in
  ofInt (Z.of_N (n / 100)) ++ str "."
  ++ ofInt (Z.of_N (frac / 10)) ++ ofInt (Z.of_N (frac mod 10)).

(** [fileSizeMB > 50], exact for the same reason. *)
Definition tooLarge (buffer : Buffer) : bool :=
  (50 * (1024 * 1024) <? buffer_length buffer)%N.

Definition tooLargeMessage (buffer : Buffer) : jsstring :=
  str "File too large (" ++ fileSizeMBtoFixed2 (buffer_length buffer)
  ++ str "MB). Please limit your query results to reduce file size.".

Definition maxRetries : nat := 3.

(** [await this.s3Client.send(cmd)] inside its [try]: the answer to the
    upload, [None] when it went through. *)
Definition send (rt : Runtime) (cmd : PutObjectCommand)
  : Eff (option Error) :=
  fun tr => (Returned (s3Send rt (uploadsIn tr) cmd), tr ++ [EvS3Send cmd]).

(** [await new Promise((resolve) => setTimeout(resolve, ms))] *)
Definition sleep (ms : Z) : Eff unit := emit (EvSetTimeout ms).

Definition uploadFailedMessage (uploadError : Error) : jsstring :=
  str "S3 upload failed after " ++ ofInt (Z.of_nat maxRetries)
  ++ str " attempts: " ++ err_message uploadError.

(** The [while (uploadAttempts < maxRetries)] loop; [fuel] bounds the
    number of iterations unfolded. *)
Fixpoint uploadLoop (rt : Runtime) (cmd : PutObjectCommand) (fuel : nat)
  (uploadAttempts : nat) {struct fuel} : Eff unit :=
  if uploadAttempts <? maxRetries then
    match fuel with
    | O => outOfFuel
    | S fuel' =>
        answer <- send rt cmd ;;
        match answer with
        | None => ret tt
        | Some uploadError =>
            let uploadAttempts := S uploadAttempts in
            if maxRetries <=? uploadAttempts
            then throw (newError (uploadFailedMessage uploadError))
            else
              sleep (2 ^ Z.of_nat uploadAttempts * 1000) ;;;
              uploadLoop rt cmd fuel' uploadAttempts
        end
    end
  else ret tt.

(** [JSON.stringify({ url, filename })] *)
Definition resultJson (url filename : jsstring) : jsstring :=
  str "{" ++ jsonString (str "url") ++ str ":" ++ jsonString url
  ++ str "," ++ jsonString (str "filename") ++ str ":"
  ++ jsonString filename ++ str "}".

Definition failedMessage (error : Error) : jsstring :=
  str "Failed to generate and upload Excel file to S3: "
  ++ orElse (err_message error) (errorToString error).

Definition defaultNameOf (rt : Runtime) : jsstring :=
  let isoDate := slice0 10 (dateIso rt) in
  str "report_" ++ dataSourceLabel (env rt) ++ str "_" ++ isoDate
  ++ str ".xlsx".

Definition finalFilenameOf (rt : Runtime) (args : Args) : jsstring :=
  sanitizeFilename (dateMs rt) (orDefault (filename args) (defaultNameOf rt)).

Definition putObjectCommandOf (rt : Runtime) (args : Args) (buffer : Buffer)
  : PutObjectCommand :=
  {| Bucket := orDefault (env rt !! "AWS_S3_BUCKET")
                 (str "reporting-agent-files");
     Key := objectKeyOf (env rt) (finalFilenameOf rt args);
     Body := buffer;
     ContentType :=
       str "application/vnd.openxmlformats-officedocument.spreadsheetml.sheet";
     CacheControl := str "public, max-age=3600";
     ACL := str "public-read" |}.

(** The tool function, for arguments that are present.  The upload loop
    is given [maxRetries] units of fuel, which it never exhausts
    ([uploadLoop_fuel]). *)
Definition func (rt : Runtime) (args : Args) : Eff jsstring :=
  tryCatch
    (if negb (valueTruthy (data args)) then ret noDataMessage
     else if negb (isArray (data args)) || (arrayLength (data args) =? 0)
     then ret notArrayMessage
     else
       let bucketName :=
         orDefault (env rt !! "AWS_S3_BUCKET") (str "reporting-agent-files") in
       let finalSheetName := sanitizeSheetName (sheetName args) in
       let finalFilename := finalFilenameOf rt args in
       let objectKey := objectKeyOf (env rt) finalFilename in
       buffer <- liftSum (xlsxWrite rt (data args) finalSheetName) ;;
       if tooLarge buffer then ret (tooLargeMessage buffer)
       else
         let putObjectCommand := putObjectCommandOf rt args buffer in
         uploadLoop rt putObjectCommand maxRetries 0 ;;;
         let publicUrl :=
           str "https://" ++ bucketName ++ str ".s3."
           ++ orDefault (env rt !! "AWS_REGION") (str "us-east-1")
           ++ str ".amazonaws.com/" ++ objectKey in
         ret (resultJson publicUrl finalFilename))
    (fun error => ret (failedMessage error)).

End ExcelExport.

(** ** Reference definitions, written from the specification *)

Module Spec.
Import Js Eff LangChainService.

(** The registry: the registered backends under their identifiers, in the
    fixed priority order, OpenAI first and Anthropic second. *)
Definition registry (svc : Service) : list (jsstring * LLM) :=
  match openaiLLM svc with
  | Some m => [(str "openai", OpenAI m)]
  | None => []
  end
  ++ match anthropicLLM svc with
     | Some m => [(str "anthropic", Anthropic m)]
     | None => []
     end.

Fixpoint lookupBackend (providerId : jsstring) (reg : list (jsstring * LLM))
  : option LLM :=
  match reg with
  | [] => None
  | (id, backend) :: reg' =>
      if decide (id = providerId) then Some backend
      else lookupBackend providerId reg'
  end.

(** Selection policy: the backend named by [providerId] when it is
    registered, else the first registered backend. *)
Definition select (svc : Service) (providerId : option jsstring)
  : option LLM :=
  match providerId ≫= (fun id => lookupBackend id (registry svc)) with
  | Some backend => Some backend
  | None => snd <$> head (registry svc)
  end.

Definition newline : ascii := ascii_of_N 10.

Definition bar : ascii := ascii_of_N 124.

(** The text of a result: its lines, separated by line feeds. *)
Fixpoint joinLines (lines : list jsstring) : jsstring :=
  match lines with
  | [] => []
  | [l] => l
  | l :: rest => l ++ newline :: joinLines rest
  end.

(** The leading column of a row: what stands before its first bar. *)
Fixpoint leadingColumn (row : jsstring) : jsstring :=
  match row with
  | [] => []
  | c :: r => if decide (c = bar) then [] else c :: leadingColumn r
  end.

(** The table name a row contributes: none for a blank row, and none when
    the leading column holds no name. *)
Definition tableOfRow (row : jsstring) : option jsstring :=
  if decide (trim row = []) then None
  else
    let name := trim (leadingColumn row) in
    if decide (name = []) then None else Some name.

(** Table names of a result whose first line is the header. *)
Definition tableNames (rows : list jsstring) : list jsstring :=
  omap tableOfRow rows.

(** The providers whose credential is present in the environment. *)
Definition configuredProviders (e : gmap string jsstring) : list jsstring :=
  match envTruthy e "OPENAI_API_KEY" with
  | Some _ => [str "openai"]
  | None => []
  end
  ++ match envTruthy e "ANTHROPIC_API_KEY" with
     | Some _ => [str "anthropic"]
     | None => []
     end.

(** Malformed [data]: missing, not an array, or an empty array. *)
Definition malformedData (v : Value) : Prop :=
  v = Undefined \/ isArray v = false \/ v = Array [].

(** An uploader that fails exactly twice and then succeeds. *)
Definition failsTwiceThenSucceeds (rt : Runtime) (cmd : PutObjectCommand)
  : Prop :=
  is_Some (s3Send rt 0 cmd) /\ is_Some (s3Send rt 1 cmd)
  /\ s3Send rt 2 cmd = None.

(** The trace of three uploads with the two waits between them. *)
Definition threeAttempts (cmd : PutObjectCommand) : list Event :=
  [EvS3Send cmd; EvSetTimeout 2000; EvS3Send cmd; EvSetTimeout 4000;
   EvS3Send cmd].

(** An uploader that always fails. *)
Definition alwaysFails (rt : Runtime) (cmd : PutObjectCommand) : Prop :=
  forall k, is_Some (s3Send rt k cmd).

(** The calls of a complete two-phase setup, in order. *)
Definition setupTrace (config : UserDatasourceConfig) : list Event :=
  [EvFromOptionsParams (basicOptionsOf config);
   EvRun (basicOptionsOf config) (getTablesQuery (type config));
   EvFromOptionsParams (optionsOf config);
   EvRun (optionsOf config) (getTestQuery (type config))].

(** The visible tables of a handle are restricted to the tables
    [existing]. *)
Definition restrictedTo (handle : SqlDatabase) (existing : list jsstring)
  : Prop :=
  forall t, t ∈ visibleTables handle -> t ∈ existing.

(** A configuration with a required field empty.  The port is a number:
    it has no empty value. *)
Definition hasEmptyField (config : UserDatasourceConfig) : Prop :=
  type config = [] \/ host config = [] \/ database config = []
  \/ username config = [] \/ password config = [].

End Spec.

(** ** Concrete inputs used by the examples below *)

Module Examples.
Import Js Eff LangChainService ExcelExport.

Definition boom : Error := newError (str "socket hang up").

(** One row, no file name, no sheet name. *)
Definition oneRow : Args :=
  {| data := Array [Object [(str "status", Str (str "open"))]];
     filename := None;
     sheetName := None |}.

Definition smallWorkbook : Buffer := {| buffer_length := 6144 |}.

(** One byte over 50 MB. *)
Definition hugeWorkbook : Buffer := {| buffer_length := 52428801 |}.

(** A runtime with an empty environment whose uploader fails on the first
    [failures] uploads. *)
Definition runtimeFailing (failures : nat) (workbook : Buffer) : Runtime :=
  {| env := ∅;
     dateIso := str "2025-11-22T10:00:00.000Z";
     dateMs := 1763805600000;
     xlsxWrite := fun _ _ => inr workbook;
     s3Send := fun k _ => if k <? failures then Some boom else None |}.

Definition runtimeAlwaysFailing : Runtime :=
  {| env := ∅;
     dateIso := str "2025-11-22T10:00:00.000Z";
     dateMs := 1763805600000;
     xlsxWrite := fun _ _ => inr smallWorkbook;
     s3Send := fun _ _ => Some boom |}.

Definition someCommand : PutObjectCommand :=
  putObjectCommandOf (runtimeFailing 2 smallWorkbook) oneRow smallWorkbook.

(** A complete configuration. *)
Definition shopConfig : UserDatasourceConfig :=
  {| host := str "db.internal";
     port := 5432;
     database := str "shop";
     username := str "report";
     password := str "s3cret";
     type := str "postgres" |}.

(** The same with the host left empty. *)
Definition emptyHostConfig : UserDatasourceConfig :=
  {| host := [];
     port := 5432;
     database := str "shop";
     username := str "report";
     password := str "s3cret";
     type := str "postgres" |}.

(** A database holding [users] and [orders] that accepts every connection
    and answers the probe, and whose catalog the connecting role may not
    read. *)
Definition catalogDenied : Database :=
  {| db_connect := fun _ => inr [str "users"; str "orders"];
     db_run := fun _ query =>
       if decide (query = str "SELECT 1 as test")
       then inr (str "[{test:1}]")
       else inl (newError (str "permission denied for information_schema")) |}.

Definition envKeys (openaiKey : string) : gmap string jsstring :=
  {[ "OPENAI_API_KEY" := str openaiKey ]}.

(** A runtime labelled with a data source. *)
Definition runtimeFor (label : string) : Runtime :=
  {| env := {[ "PG_DATABASE" := str label ]};
     dateIso := str "2025-11-22T10:00:00.000Z";
     dateMs := 1763805600000;
     xlsxWrite := fun _ _ => inr smallWorkbook;
     s3Send := fun _ _ => None |}.

(** Rows of an introspection answer: a row with two columns, a blank row,
    a padded row, and a row whose leading column is empty. *)
Definition catalogRows : list jsstring :=
  [str "users | public"; []; str "  orders  "; str " | public"].

End Examples.

(** ** The toolkit factory *)

Module SqlToolkitFactory.
Import Js Eff LangChainService.
Local Open Scope eff_scope.

(** [new SqlToolkit(sqlDatabase, llm)]: the toolkit keeps both. *)
Record SqlToolkit := mkSqlToolkit {
  toolkit_db : SqlDatabase;
  toolkit_llm : LLM }.

Definition createSqlToolkit (db : Database) (llm : LLM)
  (connectionConfig : option UserDatasourceConfig) : Eff SqlToolkit :=
  sqlDatabase <- getSqlDatabase db connectionConfig ;;
  ret {| toolkit_db := sqlDatabase; toolkit_llm := llm |}.

End SqlToolkitFactory.

(** ** Front end: the connection selector *)

Module ConnectionSelector.
Import Js.

(** The fields of the generated [Connection] type that the selection logic
    reads. *)
Record Connection := mkConnection {
  _id : jsstring;
  isActive : bool }.

(** [connectionsData?.connections || []], then the filter on [isActive]. *)
Definition activeConnections (connectionsData : option (list Connection))
  : list Connection :=
  let connections := default [] connectionsData in
  List.filter (fun connection => isActive connection) connections.

(** The [value] of the select:
    [selectedConnectionId || activeConnections[0]?._id || null].
    An absent or [null] selection is [None]; so is the [null] result. *)
Definition selectValue (selectedConnectionId : option jsstring)
  (connectionsData : option (list Connection)) : option jsstring :=
  match selectedConnectionId with
  | Some (c :: s) => Some (c :: s)
  | _ =>
      match head (activeConnections connectionsData) with
      | Some connection =>
          match _id connection with
          | [] => None
          | c :: s => Some (c :: s)
          end
      | None => None
      end
  end.

(** The effect: the argument [onConnectionSelect] is called with, if it is
    called. *)
Definition autoSelect (selectedConnectionId : option jsstring)
  (connectionsData : option (list Connection)) : option jsstring :=
  if negb (truthy (default [] selectedConnectionId))
     && (0 <? length (activeConnections connectionsData))
  then _id <$> head (activeConnections connectionsData)
  else None.

End ConnectionSelector.

(** ** Front end: the thread panel *)

Module ThreadPanel.
Import Js.

Inductive MessageType := user | assistant.

(** [rating?: string | null] *)
Inductive Rating := RatingUndefined | RatingNull | RatingOf (s : jsstring).

(** [Message]; the fields [type] and [id] carry a prefix here. *)
Record Message := mkMessage {
  msg_type : MessageType;
  content : jsstring;
  timestamp : jsstring;
  msg_id : jsstring;
  interactionId : option jsstring;
  rating : Rating }.

(** The properties of the panel that decide what the message container
    shows.  Numbers are handed on untouched and carried as integers. *)
Record ThreadPanelProps := mkThreadPanelProps {
  messages : list Message;
  threadId : option jsstring;
  progressStep : option jsstring;
  progressMessage : option jsstring;
  progressPercentage : option Z;
  showProgress : bool;
  selectedInteractionId : option jsstring }.

Record Progress := mkProgress {
  step : option jsstring;
  progress_message : option jsstring;
  percentage : option Z;
  visible : bool }.

(** The properties given to one [MessageBubble]; a property not given is
    [None].  The callback [onViewDetails] is handed on as it is and left
    out. *)
Record MessageBubbleProps := mkMessageBubbleProps {
  key : option jsstring;
  bubble_message : Message;
  bubble_threadId : option jsstring;
  bubble_interactionId : option jsstring;
  initialRating : Rating;
  isSelected : option bool;
  progress : option Progress }.

Definition progressOf (p : ThreadPanelProps) : Progress :=
  {| step := progressStep p;
     progress_message := progressMessage p;
     percentage := progressPercentage p;
     visible := true |}.

(** The bubble of the message at [index]. *)
Definition messageBubble (p : ThreadPanelProps) (index : nat)
  (message : Message) : MessageBubbleProps :=
  let isLastMessage := index =? length (messages p) - 1 in
  let isAIMessage :=
    match msg_type message with
    | assistant => true
    | user => false
    end in
  let shouldShowProgress := showProgress p && isLastMessage && isAIMessage in
  {| key := Some (msg_id message);
     bubble_message := message;
     bubble_threadId := threadId p;
     bubble_interactionId := interactionId message;
     initialRating := rating message;
     isSelected :=
       Some (bool_decide (interactionId message = selectedInteractionId p));
     progress := if shouldShowProgress then Some (progressOf p) else None |}.

(** The separate bubble shown while processing; [now] is what
    [new Date().toISOString()] answers. *)
Definition processingBubble (p : ThreadPanelProps) (now : jsstring)
  : MessageBubbleProps :=
  {| key := None;
     bubble_message :=
       {| msg_type := assistant;
          content := str "Processing...";
          timestamp := now;
          msg_id := str "processing";
          interactionId := None;
          rating := RatingUndefined |};
     bubble_threadId := None;
     bubble_interactionId := None;
     initialRating := RatingUndefined;
     isSelected := None;
     progress := Some (progressOf p) |}.

(** What the message container holds: the empty-thread placeholder, or the
    bubbles in order. *)
Inductive Container :=
| EmptyThread
| Bubbles (bubbles : list MessageBubbleProps).

Definition messagesContainer (p : ThreadPanelProps) (now : jsstring)
  : Container :=
  if length (messages p) =? 0 then EmptyThread
  else
    Bubbles
      (imap (messageBubble p) (messages p)
       ++ (if showProgress p then [processingBubble p now] else [])).

(** The bubbles of a container. *)
Definition bubblesOf (c : Container) : list MessageBubbleProps :=
  match c with
  | EmptyThread => []
  | Bubbles bubbles => bubbles
  end.

(** How many bubbles show progress. *)
Definition progressShown (c : Container) : nat :=
  length (List.filter (fun b => bool_decide (is_Some (progress b)))
            (bubblesOf c)).

End ThreadPanel.

(** ** Further reference definitions *)

Module Facts.
Import Js Eff LangChainService ExcelExport.


(** The tool function gets as far as the upload: [data] holds rows and the
    workbook made of them is within the ceiling. *)
Definition uploadable (rt : Runtime) (args : Args) (buffer : Buffer) : Prop :=
  (exists row rows, data args = Array (row :: rows))
  /\ xlsxWrite rt (data args) (sanitizeSheetName (sheetName args))
     = inr buffer
  /\ (buffer_length buffer <= 50 * 1024 * 1024)%N.

(** [https://<bucket>.s3.<region>.amazonaws.com/<key>] for the bucket and
    key of an upload. *)
Definition publicUrlOf (rt : Runtime) (cmd : PutObjectCommand) : jsstring :=
  str "https://" ++ Bucket cmd ++ str ".s3."
  ++ orDefault (env rt !! "AWS_REGION") (str "us-east-1")
  ++ str ".amazonaws.com/" ++ Key cmd.

(** Total of the waits of a trace, in milliseconds. *)
Definition totalWait (tr : list Event) : Z :=
  foldr (fun ev acc =>
           match ev with
           | EvSetTimeout ms => (ms + acc)%Z
           | _ => acc
           end) 0%Z tr.

Definition modelOf (llm : LLM) : jsstring :=
  match llm with
  | OpenAI m => openai_model m
  | Anthropic m => anthropic_model m
  end.

Definition providerOf (llm : LLM) : jsstring :=
  match llm with
  | OpenAI m => openai_provider m
  | Anthropic m => anthropic_provider m
  end.

Definition apiKeyOf (llm : LLM) : jsstring :=
  match llm with
  | OpenAI m => openai_apiKey m
  | Anthropic m => anthropic_apiKey m
  end.

Definition carriageReturn : ascii := ascii_of_N 13.

Definition dot : ascii := ascii_of_N 46.

End Facts.

(** ** Further concrete inputs *)

Module MoreExamples.
Import Js Eff LangChainService ExcelExport.


(** A serializer that throws. *)
Definition runtimeBadWorkbook : Runtime :=
  {| env := ∅;
     dateIso := str "2025-11-22T10:00:00.000Z";
     dateMs := 1763805600000;
     xlsxWrite := fun _ _ => inl (newError (str "Sheet name too long"));
     s3Send := fun _ _ => None |}.

(** The database of [Examples.catalogDenied], with a readable catalog. *)
Definition catalogReadable : Database :=
  {| db_connect := fun _ => inr [str "users"; str "orders"];
     db_run := fun _ query =>
       if decide (query = str "SELECT 1 as test")
       then inr (str "[{test:1}]")
       else inr (Spec.joinLines [str "table_name"; str "users"]) |}.

(** An introspection answer with the line ends of Windows. *)
Definition windowsRows : list jsstring :=
  [str "users" ++ [Facts.carriageReturn];
   str "orders | public" ++ [Facts.carriageReturn];
   []].

Definition unixRows : list jsstring :=
  [str "users"; str "orders | public"; []].

Definition bothKeys : gmap string jsstring :=
  {[ "OPENAI_API_KEY" := str "sk-one"; "ANTHROPIC_API_KEY" := str "sk-two" ]}.

Definition threeConnections : list ConnectionSelector.Connection :=
  [ {| ConnectionSelector._id := str "c1";
       ConnectionSelector.isActive := false |};
    {| ConnectionSelector._id := str "c2";
       ConnectionSelector.isActive := true |};
    {| ConnectionSelector._id := str "c3";
       ConnectionSelector.isActive := true |} ].

Definition question : ThreadPanel.Message :=
  {| ThreadPanel.msg_type := ThreadPanel.user;
     ThreadPanel.content := str "count orders by status";
     ThreadPanel.timestamp := str "2025-11-22T10:00:00.000Z";
     ThreadPanel.msg_id := str "m1";
     ThreadPanel.interactionId := None;
     ThreadPanel.rating := ThreadPanel.RatingUndefined |}.

Definition answer : ThreadPanel.Message :=
  {| ThreadPanel.msg_type := ThreadPanel.assistant;
     ThreadPanel.content := str "3 statuses";
     ThreadPanel.timestamp := str "2025-11-22T10:00:05.000Z";
     ThreadPanel.msg_id := str "m2";
     ThreadPanel.interactionId := Some (str "i1");
     ThreadPanel.rating := ThreadPanel.RatingNull |}.

Definition processingPanel (msgs : list ThreadPanel.Message)
  : ThreadPanel.ThreadPanelProps :=
  {| ThreadPanel.messages := msgs;
     ThreadPanel.threadId := Some (str "t1");
     ThreadPanel.progressStep := Some (str "query");
     ThreadPanel.progressMessage := Some (str "Running query");
     ThreadPanel.progressPercentage := Some 40%Z;
     ThreadPanel.showProgress := true;
     ThreadPanel.selectedInteractionId := None |}.

End MoreExamples.

(** ** Calling the tool *)

Module ExportInvocation.
Import Js Eff LangChainService ExcelExport.

(** The tool function as it is called: [args] may be absent ([undefined]
    or [null]), and is destructured before the [try] block is entered, so
    an absent [args] throws out of the function.  [typeError] is the
    [TypeError] the engine raises for it.  [ExcelExport.func] is the
    function from its [try] block on. *)
Definition funcCalled (typeError : Error) (rt : Runtime)
  (args : option Args) : Eff jsstring :=
  match args with
  | None => throw typeError
  | Some args => func rt args
  end.

(** [o[name]] on the entries of an object; a missing property is
    [undefined]. *)
Fixpoint property (name : jsstring) (fields : list (jsstring * Value))
  : Value :=
  match fields with
  | [] => Undefined
  | (k, v) :: rest => if decide (k = name) then v else property name rest
  end.

(** [input.data], [undefined] when the input is no object. *)
Definition inputData (input : Value) : Value :=
  match input with
  | Object fields => property (str "data") fields
  | _ => Undefined
  end.

(** [z.record(z.string(), z.unknown())]: any plain object. *)
Definition isRecord (v : Value) : bool :=
  match v with
  | Object _ => true
  | _ => false
  end.

(** [z.string().optional()]: the outer [None] is a rejection. *)
Definition optionalString (v : Value) : option (option jsstring) :=
  match v with
  | Undefined => Some None
  | Str s => Some (Some s)
  | _ => None
  end.

(** The [schema] of the tool: an object whose [data] is an array of at
    least one record and whose [filename] and [sheetName] are strings or
    absent.  [None] is a rejection; other properties are dropped. *)
Definition schemaParse (input : Value) : option Args :=
  match input with
  | Object fields =>
      match property (str "data") fields with
      | Array rows =>
          if forallb isRecord rows && (1 <=? length rows) then
            match optionalString (property (str "filename") fields),
                  optionalString (property (str "sheetName") fields) with
            | Some filename, Some sheetName =>
                Some {| data := Array rows;
                        filename := filename;
                        sheetName := sheetName |}
            | _, _ => None
            end
          else None
      | _ => None
      end
  | _ => None
  end.

(** An invocation of the tool built by [new DynamicStructuredTool]: the
    input is parsed with the schema; a rejected input throws
    ([schemaError] is what the tool class throws for it) and the tool
    function is not called; an accepted one is handed to the tool
    function. *)
Definition invoke (schemaError : Value -> Error) (typeError : Error)
  (rt : Runtime) (input : Value) : Eff jsstring :=
  match schemaParse input with
  | None => throw (schemaError input)
  | Some args => funcCalled typeError rt (Some args)
  end.

(** The part of a name that [sanitizeFilename] keeps in front of the time
    stamp. *)
Definition stemOf (name : jsstring) : jsstring :=
  if endsWith (toLowerCase name) (str ".xlsx")
  then default (str "undefined") (first (split (str ".xlsx") name))
  else name.

(** The object key of an export made in a turn bound to
    [connectionConfig].  [createExcelExportTool] takes no argument and the
    tool function reads the label from the environment: the configuration
    of the turn has no part in the key. *)
Definition exportKey (rt : Runtime) (connectionConfig : UserDatasourceConfig)
  (args : Args) : jsstring :=
  objectKeyOf (env rt) (finalFilenameOf rt args).

End ExportInvocation.

(** ** Concrete inputs, continued *)

Module InvocationExamples.
Import Js Eff LangChainService ExcelExport.

Definition schemaErrorOf (input : Value) : Error :=
  {| err_name := str "ToolInputParsingException";
     err_message := str "Received tool input did not match expected schema" |}.

Definition typeErrorOf : Error :=
  {| err_name := str "TypeError";
     err_message := str "Cannot destructure property 'data' of 'args' as it is undefined." |}.

(** [{ data: [] }] *)
Definition emptyDataInput : Value := Object [(str "data", Array [])].

(** [{ data: [{ status: 'open' }], filename: 'q3' }] *)
Definition oneRowInput : Value :=
  Object [(str "data", Array [Object [(str "status", Str (str "open"))]]);
          (str "filename", Str (str "q3"))].

(** The configuration of [Examples.shopConfig] for another database of the
    same server. *)
Definition hrConfig : UserDatasourceConfig :=
  {| host := str "db.internal";
     port := 5432;
     database := str "hr";
     username := str "report";
     password := str "s3cret";
     type := str "postgres" |}.


(** A name of 200 units. *)
Definition longName : jsstring := replicate 200 "a"%char.

End InvocationExamples.

(** * Properties *)

(** ** Model provider registry *)

Section Registry.
Import Js Eff LangChainService.

Lemma firstAvailable_head (svc : Service) :
  firstAvailable svc = snd <$> head (Spec.registry svc).
Proof.
  unfold firstAvailable, Spec.registry.
  destruct (openaiLLM svc), (anthropicLLM svc); reflexivity.
Qed.

Lemma getLLM_absent (svc : Service) : getLLM svc None = firstAvailable svc.
Proof. reflexivity. Qed.

Lemma getLLM_unknown (svc : Service) (p : jsstring) :
  p <> str "openai" -> p <> str "anthropic" ->
  getLLM svc (Some p) = firstAvailable svc.
Proof.
  intros Ho Ha. unfold getLLM.
  destruct (decide (p = str "openai")); [contradiction|].
  destruct (decide (p = str "anthropic")); [contradiction|].
  reflexivity.
Qed.

(** C7.  Backend selection follows the registry's policy: [getLLM] returns
    the backend named by the provider identifier when that backend is
    registered, and otherwise (unknown, unregistered or absent identifier)
    the first registered backend in the order OpenAI, Anthropic. *)
Theorem getLLM_selection (svc : Service) (provider : option jsstring) :
  getLLM svc provider = Spec.select svc provider.
Proof.
  unfold Spec.select.
  destruct provider as [p|]; simpl; [|apply firstAvailable_head].
  unfold getLLM. rewrite firstAvailable_head.
  unfold Spec.registry.
  destruct (decide (p = str "openai")) as [->|Ho].
  - destruct (openaiLLM svc), (anthropicLLM svc); reflexivity.
  - destruct (decide (p = str "anthropic")) as [->|Ha].
    + destruct (openaiLLM svc), (anthropicLLM svc); reflexivity.
    + destruct (openaiLLM svc), (anthropicLLM svc); simpl in *;
        repeat case_decide; congruence.
Qed.

Lemma getAvailableLLMs_of_configured (e : gmap string jsstring) :
  map llm_id (getAvailableLLMs (initializeLLMs e)) = Spec.configuredProviders e.
Proof.
  unfold getAvailableLLMs, initializeLLMs, Spec.configuredProviders. simpl.
  destruct (envTruthy e "OPENAI_API_KEY"), (envTruthy e "ANTHROPIC_API_KEY");
    reflexivity.
Qed.

(** C10.  The descriptors listed by [getAvailableLLMs] do not depend on the
    credentials: two environments that configure the same providers, with
    whatever keys, yield the same sequence of descriptors. *)
Theorem getAvailableLLMs_credential_independent (e1 e2 : gmap string jsstring) :
  Spec.configuredProviders e1 = Spec.configuredProviders e2 ->
  getAvailableLLMs (initializeLLMs e1) = getAvailableLLMs (initializeLLMs e2).
Proof.
  unfold Spec.configuredProviders, getAvailableLLMs, initializeLLMs. simpl.
  destruct (envTruthy e1 "OPENAI_API_KEY"), (envTruthy e1 "ANTHROPIC_API_KEY"),
    (envTruthy e2 "OPENAI_API_KEY"), (envTruthy e2 "ANTHROPIC_API_KEY");
    simpl; intros H; try reflexivity; discriminate H.
Qed.

Lemma getAvailableLLMs_credential_independent_witness :
  Spec.configuredProviders (Examples.envKeys "sk-first")
  = Spec.configuredProviders (Examples.envKeys "sk-second")
  /\ getAvailableLLMs (initializeLLMs (Examples.envKeys "sk-first"))
     = getAvailableLLMs (initializeLLMs (Examples.envKeys "sk-second"))
  /\ openaiLLM (initializeLLMs (Examples.envKeys "sk-first"))
     <> openaiLLM (initializeLLMs (Examples.envKeys "sk-second")).
Proof.
  split; [vm_compute; reflexivity|].
  split.
  - apply (getAvailableLLMs_credential_independent
             (Examples.envKeys "sk-first") (Examples.envKeys "sk-second")).
    vm_compute; reflexivity.
  - vm_compute. discriminate.
Defined.

End Registry.

(** ** Export tool: argument validation and size ceiling *)

Section ExportValidation.
Import Js Eff ExcelExport.

Lemma malformed_cases (v : Value) :
  Spec.malformedData v ->
  valueTruthy v = false
  \/ negb (isArray v) || (arrayLength v =? 0) = true.
Proof.
  intros [-> | [H | ->]].
  - left. reflexivity.
  - right. rewrite H. reflexivity.
  - right. reflexivity.
Qed.

(** The tool function on malformed data: when [data] is missing, is not
    an array or is an empty array, the
    tool function returns one of its two error texts, throws nothing and
    makes no call to the outside, so no upload. *)
Theorem func_malformed_data (rt : Runtime) (args : Args) :
  Spec.malformedData (data args) ->
  exists msg,
    exec (func rt args) = (Returned msg, [])
    /\ (msg = noDataMessage \/ msg = notArrayMessage)
    /\ prefix (str "Error: ") msg.
Proof.
  intros H. apply malformed_cases in H.
  unfold exec, func, tryCatch.
  destruct (valueTruthy (data args)) eqn:Ht; simpl.
  - destruct H as [H|H]; [discriminate|]. rewrite H. simpl.
    exists notArrayMessage. split; [reflexivity|]. split; [now right|].
    eexists. reflexivity.
  - exists noDataMessage. split; [reflexivity|]. split; [now left|].
    eexists. reflexivity.
Qed.

Lemma func_malformed_data_witness :
  Spec.malformedData (Number 42)
  /\ exists msg,
      exec (func Examples.runtimeAlwaysFailing
              {| data := Number 42; filename := None; sheetName := None |})
      = (Returned msg, [])
      /\ (msg = noDataMessage \/ msg = notArrayMessage)
      /\ prefix (str "Error: ") msg.
Proof.
  assert (H : Spec.malformedData (Number 42)) by (right; left; reflexivity).
  split; [exact H|].
  exact (func_malformed_data Examples.runtimeAlwaysFailing
           {| data := Number 42; filename := None; sheetName := None |} H).
Defined.

Lemma wellFormed_cases (v : Value) (row : Value) (rows : list Value) :
  v = Array (row :: rows) ->
  valueTruthy v = true /\ negb (isArray v) || (arrayLength v =? 0) = false.
Proof. intros ->. split; reflexivity. Qed.

(** C4.  When the workbook serialized from a non-empty array of rows is
    larger than 50 MB, the tool function returns the size-limit text and
    makes no call to the outside, so no upload attempt. *)
Theorem func_too_large (rt : Runtime) (args : Args) (row : Value)
  (rows : list Value) (buffer : Buffer) :
  data args = Array (row :: rows) ->
  xlsxWrite rt (data args) (sanitizeSheetName (sheetName args)) = inr buffer ->
  (50 * 1024 * 1024 < buffer_length buffer)%N ->
  exec (func rt args) = (Returned (tooLargeMessage buffer), [])
  /\ prefix (str "File too large (") (tooLargeMessage buffer).
Proof.
  intros Hd Hx Hlen.
  destruct (wellFormed_cases _ _ _ Hd) as [Ht Ha].
  split; [|eexists; reflexivity].
  unfold exec, func, tryCatch, bind.
  rewrite Ht, Ha. simpl negb. cbv iota.
  rewrite Hx. unfold liftSum, ret.
  assert (Hl : tooLarge buffer = true).
  { unfold tooLarge. apply N.ltb_lt. lia. }
  rewrite Hl. reflexivity.
Qed.

Lemma func_too_large_witness :
  (50 * 1024 * 1024 < buffer_length Examples.hugeWorkbook)%N
  /\ exec (func (Examples.runtimeFailing 0 Examples.hugeWorkbook)
             Examples.oneRow)
     = (Returned (str "File too large (50.00MB). Please limit your query results to reduce file size."),
        []).
Proof.
  assert (Hlen : (50 * 1024 * 1024
                  < buffer_length Examples.hugeWorkbook)%N) by reflexivity.
  split; [exact Hlen|].
  exact (proj1 (func_too_large
                  (Examples.runtimeFailing 0 Examples.hugeWorkbook)
                  Examples.oneRow _ _ Examples.hugeWorkbook
                  eq_refl eq_refl Hlen)).
Defined.

(** At the ceiling itself the workbook is uploaded. *)
Lemma tooLarge_exactly_50MB : tooLarge {| buffer_length := 52428800 |} = false.
Proof. reflexivity. Qed.

End ExportValidation.

(** ** Export uploader: the retry loop *)

Section UploadRetry.
Import Js Eff ExcelExport.

Variable rt : Runtime.
Variable cmd : PutObjectCommand.

(** One unfolding of the loop body. *)
Lemma uploadLoop_step (fuel attempts : nat) (tr : list Event) :
  attempts < maxRetries ->
  uploadLoop rt cmd (S fuel) attempts tr
  = match s3Send rt (uploadsIn tr) cmd with
    | None => (Returned tt, tr ++ [EvS3Send cmd])
    | Some uploadError =>
        if maxRetries <=? S attempts
        then (Thrown (newError (uploadFailedMessage uploadError)),
              tr ++ [EvS3Send cmd])
        else uploadLoop rt cmd fuel (S attempts)
               ((tr ++ [EvS3Send cmd])
                ++ [EvSetTimeout (2 ^ Z.of_nat (S attempts) * 1000)])
    end.
Proof.
  intros Hlt. cbn [uploadLoop].
  apply Nat.ltb_lt in Hlt. rewrite Hlt.
  unfold bind, send, sleep, emit. destruct (s3Send rt (uploadsIn tr) cmd); [|reflexivity].
  destruct (maxRetries <=? S attempts); reflexivity.
Qed.

Lemma uploadLoop_done (fuel attempts : nat) (tr : list Event) :
  maxRetries <= attempts ->
  uploadLoop rt cmd fuel attempts tr = (Returned tt, tr).
Proof.
  intros Hge. destruct fuel; cbn [uploadLoop];
    (replace (attempts <? maxRetries) with false
      by (symmetry; apply Nat.ltb_ge; exact Hge)); reflexivity.
Qed.

(** The loop ends within [maxRetries - attempts] iterations: more fuel
    changes nothing, and the outcome is never [OutOfFuel]. *)
Lemma uploadLoop_fuel (fuel attempts : nat) (tr : list Event) :
  maxRetries - attempts <= fuel ->
  uploadLoop rt cmd fuel attempts tr
  = uploadLoop rt cmd (maxRetries - attempts) attempts tr
  /\ fst (uploadLoop rt cmd fuel attempts tr) <> OutOfFuel.
Proof.
  revert attempts tr. induction fuel as [|fuel IH]; intros attempts tr Hf.
  - assert (Hge : maxRetries <= attempts) by lia.
    rewrite !uploadLoop_done by exact Hge. split; [reflexivity|discriminate].
  - destruct (le_lt_dec maxRetries attempts) as [Hge|Hlt].
    + rewrite !uploadLoop_done by exact Hge. split; [reflexivity|discriminate].
    + replace (maxRetries - attempts) with (S (maxRetries - S attempts)) by lia.
      rewrite !uploadLoop_step by exact Hlt.
      destruct (s3Send rt (uploadsIn tr) cmd); [|split; [reflexivity|discriminate]].
      destruct (maxRetries <=? S attempts) eqn:Hm;
        [split; [reflexivity|discriminate]|].
      apply IH. lia.
Qed.

(** Whatever the uploader answers, at most [maxRetries] uploads are sent. *)
Lemma uploadLoop_bounded (fuel attempts : nat) (tr : list Event) :
  uploadsIn (snd (uploadLoop rt cmd fuel attempts tr))
  <= uploadsIn tr + (maxRetries - attempts).
Proof.
  revert attempts tr. induction fuel as [|fuel IH]; intros attempts tr.
  - cbn [uploadLoop]. destruct (attempts <? maxRetries); simpl; lia.
  - destruct (le_lt_dec maxRetries attempts) as [Hge|Hlt].
    + rewrite uploadLoop_done by exact Hge. simpl. lia.
    + rewrite uploadLoop_step by exact Hlt.
      assert (Hs : uploadsIn (tr ++ [EvS3Send cmd]) = S (uploadsIn tr)).
      { unfold uploadsIn. rewrite List.filter_app, length_app. simpl. lia. }
      destruct (s3Send rt (uploadsIn tr) cmd); [|simpl; rewrite Hs; lia].
      destruct (maxRetries <=? S attempts) eqn:Hm; [simpl; rewrite Hs; lia|].
      etransitivity; [apply IH|].
      assert (Hw : uploadsIn ((tr ++ [EvS3Send cmd])
                              ++ [EvSetTimeout (2 ^ Z.of_nat (S attempts) * 1000)])
                   = S (uploadsIn tr)).
      { rewrite <- Hs. unfold uploadsIn.
        rewrite (List.filter_app _ (tr ++ [EvS3Send cmd])), length_app.
        simpl. lia. }
      rewrite Hw. lia.
Qed.

(** Unfolds the iteration that makes the upload numbered [k], whose answer
    is given by [H]. *)
Ltac attempt k H :=
  rewrite uploadLoop_step by (unfold maxRetries; lia);
  change (uploadsIn _) with k; rewrite H.

Ltac failed_attempt k H :=
  attempt k H;
  let b := eval vm_compute in (maxRetries <=? S k) in
  change (maxRetries <=? S k) with b; cbv iota.

(** C5.  The retry loop sends at most 3 uploads.  With an uploader that
    fails exactly twice and then succeeds it returns normally after exactly
    3 uploads, having waited 2000 ms and then 4000 ms.  With an uploader
    that always fails it throws, after exactly 3 uploads and the same two
    waits, an [Error] whose message is [S3 upload failed after 3 attempts: ]
    followed by the message of the last failure. *)
Theorem uploadLoop_retry :
  uploadsIn (snd (exec (uploadLoop rt cmd maxRetries 0))) <= 3
  /\ (Spec.failsTwiceThenSucceeds rt cmd ->
      exec (uploadLoop rt cmd maxRetries 0)
      = (Returned tt,
         [EvS3Send cmd; EvSetTimeout 2000; EvS3Send cmd; EvSetTimeout 4000;
          EvS3Send cmd]))
  /\ (Spec.alwaysFails rt cmd ->
      exists uploadError,
        s3Send rt 2 cmd = Some uploadError
        /\ exec (uploadLoop rt cmd maxRetries 0)
           = (Thrown
                {| err_name := str "Error";
                   err_message :=
                     str "S3 upload failed after 3 attempts: "
                     ++ err_message uploadError |},
              [EvS3Send cmd; EvSetTimeout 2000; EvS3Send cmd;
               EvSetTimeout 4000; EvS3Send cmd])).
Proof.
  split; [apply (uploadLoop_bounded maxRetries 0 [])|].
  unfold exec. change (uploadLoop rt cmd maxRetries) with (uploadLoop rt cmd 3).
  split.
  - intros ([e0 H0] & [e1 H1] & H2).
    failed_attempt 0 H0. failed_attempt 1 H1. attempt 2 H2. reflexivity.
  - intros H.
    destruct (H 0) as [e0 H0], (H 1) as [e1 H1], (H 2) as [e2 H2].
    exists e2. split; [exact H2|].
    failed_attempt 0 H0. failed_attempt 1 H1. attempt 2 H2. reflexivity.
Qed.

End UploadRetry.

Section ExportTotal.
Import Js Eff ExcelExport.

(** The tool function always returns a text: whatever is thrown inside is
    caught, and the fuel given to the upload loop is enough. *)
Lemma func_returns_text (rt : Runtime) (args : Args) :
  exists msg, fst (exec (func rt args)) = Returned msg.
Proof.
  unfold exec, func, tryCatch.
  destruct (negb (valueTruthy (data args))); [eexists; reflexivity|].
  destruct (negb (isArray (data args)) || (arrayLength (data args) =? 0));
    [eexists; reflexivity|].
  unfold bind at 1.
  destruct (xlsxWrite rt (data args) (sanitizeSheetName (sheetName args)))
    as [e|buffer]; [eexists; reflexivity|].
  cbn [liftSum ret].
  destruct (tooLarge buffer); [eexists; reflexivity|].
  unfold bind.
  pose proof (uploadLoop_fuel rt (putObjectCommandOf rt args buffer)
                maxRetries 0 [] ltac:(lia)) as [_ Hfuel].
  destruct (uploadLoop rt (putObjectCommandOf rt args buffer) maxRetries 0 [])
    as [[[]|e|] tr]; [eexists; reflexivity|eexists; reflexivity|].
  contradiction Hfuel. reflexivity.
Qed.

End ExportTotal.

Section UploadRetryExamples.
Import Js Eff ExcelExport.

Lemma uploadLoop_retry_witness :
  Spec.failsTwiceThenSucceeds
    (Examples.runtimeFailing 2 Examples.smallWorkbook) Examples.someCommand
  /\ exec (uploadLoop (Examples.runtimeFailing 2 Examples.smallWorkbook)
             Examples.someCommand maxRetries 0)
     = (Returned tt,
        [EvS3Send Examples.someCommand; EvSetTimeout 2000;
         EvS3Send Examples.someCommand; EvSetTimeout 4000;
         EvS3Send Examples.someCommand])
  /\ Spec.alwaysFails Examples.runtimeAlwaysFailing Examples.someCommand
  /\ exec (uploadLoop Examples.runtimeAlwaysFailing
             Examples.someCommand maxRetries 0)
     = (Thrown
          {| err_name := str "Error";
             err_message :=
               str "S3 upload failed after 3 attempts: socket hang up" |},
        [EvS3Send Examples.someCommand; EvSetTimeout 2000;
         EvS3Send Examples.someCommand; EvSetTimeout 4000;
         EvS3Send Examples.someCommand]).
Proof.
  assert (H2 : Spec.failsTwiceThenSucceeds
                 (Examples.runtimeFailing 2 Examples.smallWorkbook)
                 Examples.someCommand).
  { repeat split; simpl; eauto. }
  assert (Ha : Spec.alwaysFails Examples.runtimeAlwaysFailing
                 Examples.someCommand).
  { intros k. simpl. eauto. }
  split; [exact H2|]. split.
  - exact (proj1 (proj2 (uploadLoop_retry
                           (Examples.runtimeFailing 2 Examples.smallWorkbook)
                           Examples.someCommand)) H2).
  - split; [exact Ha|].
    destruct (proj2 (proj2 (uploadLoop_retry Examples.runtimeAlwaysFailing
                              Examples.someCommand)) Ha) as (e & He & Hrun).
    simpl in He. injection He as <-. exact Hrun.
Defined.

(** The tool function on the same two uploaders: the structured result
    after the third upload, or the failure text carrying the aggregate
    error. *)
Lemma func_fails_twice_then_succeeds :
  exec (func (Examples.runtimeFailing 2 Examples.smallWorkbook)
          Examples.oneRow)
  = (Returned
       (str "{" ++ [dq] ++ str "url" ++ [dq] ++ str ":" ++ [dq]
        ++ str "https://reporting-agent-files.s3.us-east-1.amazonaws.com/reports/db/report_db_2025-11-22_1763805600000.xlsx"
        ++ [dq] ++ str "," ++ [dq] ++ str "filename" ++ [dq] ++ str ":"
        ++ [dq] ++ str "report_db_2025-11-22_1763805600000.xlsx" ++ [dq]
        ++ str "}"),
     Spec.threeAttempts Examples.someCommand).
Proof. vm_compute. reflexivity. Qed.

Lemma func_always_fails :
  exec (func Examples.runtimeAlwaysFailing Examples.oneRow)
  = (Returned
       (str "Failed to generate and upload Excel file to S3: S3 upload failed after 3 attempts: socket hang up"),
     Spec.threeAttempts Examples.someCommand).
Proof. vm_compute. reflexivity. Qed.

End UploadRetryExamples.

(** ** Connection resolver *)

Section Resolver.
Import Js Eff LangChainService.

Variable db : Database.

Lemma getTestQuery_const (dbType : jsstring) :
  getTestQuery dbType = str "SELECT 1 as test".
Proof. unfold getTestQuery. repeat case_decide; reflexivity. Qed.

(** The first phase never throws: it yields the parsed answer of the
    introspection query, or the empty list when the query fails. *)
Lemma listExistingTables_total (config : UserDatasourceConfig)
  (basic : SqlDatabase) (tr : list Event) :
  listExistingTables db config basic tr
  = (Returned
       match db_run db (sd_params basic) (getTablesQuery (type config)) with
       | inl _ => []
       | inr tablesResult => parseExistingTables tablesResult
       end,
     tr ++ [EvRun (sd_params basic) (getTablesQuery (type config))]).
Proof.
  unfold listExistingTables, tryCatch, run, bind, emit, liftSum.
  destruct (db_run db (sd_params basic) (getTablesQuery (type config)));
    reflexivity.
Qed.

(** What [getSqlDatabase] does on a configuration, by cases on the answers
    of the database. *)
Lemma getSqlDatabase_cases (config : UserDatasourceConfig) :
  exec (getSqlDatabase db (Some config))
  = match db_connect db (basicOptionsOf config) with
    | inl e => (Thrown e, take 1 (Spec.setupTrace config))
    | inr _ =>
        match db_connect db (optionsOf config) with
        | inl e => (Thrown e, take 3 (Spec.setupTrace config))
        | inr tables =>
            match db_run db (optionsOf config) (getTestQuery (type config)) with
            | inl e => (Thrown e, Spec.setupTrace config)
            | inr _ =>
                (Returned {| sd_params := optionsOf config;
                             sd_allTables := tables |},
                 Spec.setupTrace config)
            end
        end
    end.
Proof.
  unfold exec, getSqlDatabase.
  unfold bind at 1. unfold fromOptionsParams at 1.
  unfold bind at 1. unfold emit at 1. unfold bind at 1.
  destruct (db_connect db (basicOptionsOf config)) as [e|tables0];
    [reflexivity|].
  cbn [liftSum ret app].
  unfold bind at 1. rewrite listExistingTables_total.
  cbn [sd_params app].
  unfold bind at 1. unfold fromOptionsParams at 1.
  unfold bind at 1. unfold emit at 1. unfold bind at 1.
  destruct (db_connect db (optionsOf config)) as [e|tables];
    [reflexivity|].
  cbn [liftSum ret app].
  unfold bind, run, emit, liftSum. cbn [sd_params].
  destruct (db_run db (optionsOf config) (getTestQuery (type config)));
    reflexivity.
Qed.

Lemma visibleTables_unrestricted (tables : list jsstring)
  (config : UserDatasourceConfig) :
  visibleTables {| sd_params := optionsOf config; sd_allTables := tables |}
  = tables.
Proof.
  unfold visibleTables. simpl.
  induction tables as [|t ts IH]; [reflexivity|].
  simpl. rewrite IH. reflexivity.
Qed.

(** What the two-phase setup does.  On every configuration it
    either returns the handle of a second connection, opened with the
    configuration's own fields and no table restriction and probed with
    [SELECT 1 as test], whose visible tables are all the tables the library
    found; or it throws the error of the connection or probe that failed.
    The calls made are the first connection with an empty ignore list, the
    dialect's introspection query on it, the second connection and the
    probe, in this order, cut short after a connection that fails. *)
Theorem getSqlDatabase_two_phase (config : UserDatasourceConfig) :
  match exec (getSqlDatabase db (Some config)) with
  | (Returned handle, tr) =>
      sd_params handle = optionsOf config
      /\ db_connect db (optionsOf config) = inr (sd_allTables handle)
      /\ visibleTables handle = sd_allTables handle
      /\ (exists answer,
            db_run db (optionsOf config) (str "SELECT 1 as test") = inr answer)
      /\ tr = Spec.setupTrace config
  | (Thrown e, tr) =>
      (db_connect db (basicOptionsOf config) = inl e
       /\ tr = take 1 (Spec.setupTrace config))
      \/ (db_connect db (optionsOf config) = inl e
          /\ tr = take 3 (Spec.setupTrace config))
      \/ (db_run db (optionsOf config) (str "SELECT 1 as test") = inl e
          /\ tr = Spec.setupTrace config)
  | (OutOfFuel, _) => False
  end.
Proof.
  rewrite getSqlDatabase_cases. rewrite getTestQuery_const.
  destruct (db_connect db (basicOptionsOf config)) as [e|tables0] eqn:H1;
    [left; split; reflexivity|].
  destruct (db_connect db (optionsOf config)) as [e|tables] eqn:H2;
    [right; left; split; reflexivity|].
  destruct (db_run db (optionsOf config) (str "SELECT 1 as test"))
    as [e|answer] eqn:H3; [right; right; split; reflexivity|].
  cbn [sd_params sd_allTables]. repeat split.
  - apply visibleTables_unrestricted.
  - eauto.
Qed.

(** C2, as the code has it.  An absent configuration is rejected with the
    configuration error before any call to the outside.  A configuration
    that is present is not inspected: whatever its fields hold, empty or
    not, the first call made is the connection attempt, and every call
    carries the configuration's own six fields, none replaced by a
    default. *)
Theorem getSqlDatabase_configuration :
  exec (getSqlDatabase db None) = (Thrown (newError configRequiredMessage), [])
  /\ forall config,
      take 1 (snd (exec (getSqlDatabase db (Some config))))
      = [EvFromOptionsParams (basicOptionsOf config)]
      /\ snd (exec (getSqlDatabase db (Some config)))
         `prefix_of` Spec.setupTrace config
      /\ appDataSourceOptions (basicOptionsOf config)
         = {| ds_type := type config; ds_host := host config;
              ds_port := port config; ds_username := username config;
              ds_password := password config;
              ds_database := database config |}
      /\ appDataSourceOptions (optionsOf config)
         = appDataSourceOptions (basicOptionsOf config).
Proof.
  split; [reflexivity|]. intros config.
  rewrite getSqlDatabase_cases.
  split; [|split; [|split; reflexivity]].
  - destruct (db_connect db (basicOptionsOf config)); [reflexivity|].
    destruct (db_connect db (optionsOf config)); [reflexivity|].
    destruct (db_run db (optionsOf config) (getTestQuery (type config)));
      reflexivity.
  - destruct (db_connect db (basicOptionsOf config));
      [apply prefix_take|].
    destruct (db_connect db (optionsOf config)); [apply prefix_take|].
    destruct (db_run db (optionsOf config) (getTestQuery (type config)));
      reflexivity.
Qed.

End Resolver.

Section ResolverExamples.
Import Js Eff LangChainService.

(** The returned connection is not restricted to the tables confirmed by
    the introspection: when the catalog cannot be read the first phase
    yields no table, and the connection returned shows every table of the
    database. *)
Lemma getSqlDatabase_not_restricted :
  fst (exec (listExistingTables Examples.catalogDenied Examples.shopConfig
               {| sd_params := basicOptionsOf Examples.shopConfig;
                  sd_allTables := [str "users"; str "orders"] |}))
  = Returned []
  /\ exists handle tr,
      exec (getSqlDatabase Examples.catalogDenied (Some Examples.shopConfig))
      = (Returned handle, tr)
      /\ visibleTables handle = [str "users"; str "orders"]
      /\ ~ Spec.restrictedTo handle [].
Proof.
  split; [vm_compute; reflexivity|].
  eexists. eexists. split; [vm_compute; reflexivity|].
  split; [vm_compute; reflexivity|].
  intros H. specialize (H (str "users")).
  apply (not_elem_of_nil (str "users")). apply H.
  vm_compute. apply list_elem_of_here.
Qed.

(** A configuration with an empty field is not rejected: with the host
    empty both connections are attempted, with the empty host, and the
    handle is returned. *)
Lemma getSqlDatabase_empty_host_connects :
  Spec.hasEmptyField Examples.emptyHostConfig
  /\ exec (getSqlDatabase Examples.catalogDenied
             (Some Examples.emptyHostConfig))
     = (Returned {| sd_params := optionsOf Examples.emptyHostConfig;
                    sd_allTables := [str "users"; str "orders"] |},
        Spec.setupTrace Examples.emptyHostConfig)
  /\ ds_host (appDataSourceOptions (optionsOf Examples.emptyHostConfig)) = [].
Proof.
  split; [right; left; reflexivity|].
  split; [vm_compute; reflexivity|reflexivity].
Qed.

End ResolverExamples.

(** ** Trimming and sheet names *)

Section Trimming.
Import Js.

Variable p : ascii -> bool.

Lemma dropWhile_length (s : jsstring) : length (dropWhile p s) <= length s.
Proof.
  induction s as [|c r IH]; simpl; [lia|].
  destruct (p c); simpl; lia.
Qed.

Lemma dropWhile_head (s : jsstring) (c : ascii) :
  head (dropWhile p s) = Some c -> p c = false.
Proof.
  induction s as [|d r IH]; simpl; [discriminate|].
  destruct (p d) eqn:Hd; [exact IH|].
  simpl. intros [= <-]. exact Hd.
Qed.

Lemma dropWhile_fixed (s : jsstring) :
  (forall c, head s = Some c -> p c = false) -> dropWhile p s = s.
Proof.
  destruct s as [|c r]; [reflexivity|].
  intros H. simpl. rewrite (H c eq_refl). reflexivity.
Qed.

Lemma dropWhile_idem (s : jsstring) :
  dropWhile p (dropWhile p s) = dropWhile p s.
Proof. apply dropWhile_fixed, dropWhile_head. Qed.

Lemma dropWhile_suffix (s : jsstring) : suffix (dropWhile p s) s.
Proof.
  induction s as [|c r IH]; simpl; [reflexivity|].
  destruct (p c); [|reflexivity].
  apply suffix_cons_r, IH.
Qed.

Lemma dropWhile_Forall (P : ascii -> Prop) (s : jsstring) :
  Forall P s -> Forall P (dropWhile p s).
Proof.
  intros H. destruct (dropWhile_suffix s) as [k Hk].
  rewrite Hk in H. apply Forall_app in H. apply H.
Qed.

(** Dropping from a string that holds a unit outside [p] leaves
    something. *)
Lemma dropWhile_nonempty (s : jsstring) (c : ascii) :
  c ∈ s -> p c = false -> dropWhile p s <> [].
Proof.
  induction s as [|d r IH]; intros Hin Hc; [inversion Hin|].
  simpl. destruct (p d) eqn:Hd; [|discriminate].
  apply IH; [|exact Hc].
  apply elem_of_cons in Hin as [->|Hin]; [congruence|exact Hin].
Qed.

End Trimming.

Section Trim.
Import Js.

Lemma trimEnd_length (s : jsstring) : length (trimEnd s) <= length s.
Proof.
  unfold trimEnd. rewrite length_reverse.
  etransitivity; [apply dropWhile_length|]. rewrite length_reverse. lia.
Qed.

Lemma trim_length (s : jsstring) : length (trim s) <= length s.
Proof.
  unfold trim. etransitivity; [apply trimEnd_length|].
  apply dropWhile_length.
Qed.

Lemma trim_Forall (P : ascii -> Prop) (s : jsstring) :
  Forall P s -> Forall P (trim s).
Proof.
  intros H. unfold trim, trimEnd, trimStart.
  apply Forall_reverse, dropWhile_Forall, Forall_reverse, dropWhile_Forall, H.
Qed.

(** A string that starts with a unit that is not white space keeps it
    under [trimEnd]. *)
Lemma trimEnd_head (s : jsstring) (c : ascii) :
  head s = Some c -> isWhiteSpace c = false -> head (trimEnd s) = Some c.
Proof.
  intros Hh Hc. destruct s as [|d r]; [discriminate|].
  injection Hh as ->. unfold trimEnd.
  destruct (dropWhile_suffix isWhiteSpace (reverse (c :: r))) as [k Hk].
  assert (Hne : dropWhile isWhiteSpace (reverse (c :: r)) <> []).
  { apply (dropWhile_nonempty _ _ c); [|exact Hc].
    apply elem_of_reverse. left. }
  rewrite head_reverse.
  apply (f_equal last) in Hk.
  rewrite reverse_cons, last_snoc, last_app in Hk.
  destruct (last (dropWhile isWhiteSpace (reverse (c :: r)))) as [x|] eqn:Hl.
  - rewrite reverse_cons in Hl. rewrite Hl in Hk. congruence.
  - apply last_None in Hl. contradiction.
Qed.

(** The result of [trim] neither starts nor ends with white space. *)
Lemma trim_head (s : jsstring) (c : ascii) :
  head (trim s) = Some c -> isWhiteSpace c = false.
Proof.
  unfold trim, trimStart. intros H.
  destruct (dropWhile isWhiteSpace s) as [|d r] eqn:Hd.
  - discriminate H.
  - assert (Hw : isWhiteSpace d = false).
    { apply (dropWhile_head isWhiteSpace s). rewrite Hd. reflexivity. }
    rewrite (trimEnd_head (d :: r) d eq_refl Hw) in H.
    injection H as <-. exact Hw.
Qed.

Lemma trimStart_fixed (s : jsstring) :
  (forall c, head s = Some c -> isWhiteSpace c = false) -> trimStart s = s.
Proof. apply dropWhile_fixed. Qed.

Lemma trimEnd_idem (s : jsstring) : trimEnd (trimEnd s) = trimEnd s.
Proof.
  unfold trimEnd. rewrite reverse_involutive, dropWhile_idem. reflexivity.
Qed.

Lemma trim_idem (s : jsstring) : trim (trim s) = trim s.
Proof.
  unfold trim at 1. rewrite trimStart_fixed by apply trim_head.
  unfold trim. apply trimEnd_idem.
Qed.

End Trim.

Section SheetName.
Import Js ExcelExport.

Lemma replaceClass_Forall (cls : ascii -> bool) (r : ascii) (s : jsstring) :
  cls r = false -> Forall (fun c => cls c = false) (replaceClass cls r s).
Proof.
  intros Hr. unfold replaceClass. apply List.Forall_forall. intros c Hin.
  apply in_map_iff in Hin as (d & <- & _).
  destruct (cls d) eqn:Hd; [exact Hr|exact Hd].
Qed.

Lemma replaceClass_fixed (cls : ascii -> bool) (r : ascii) (s : jsstring) :
  Forall (fun c => cls c = false) s -> replaceClass cls r s = s.
Proof.
  unfold replaceClass. induction 1 as [|c s Hc _ IH]; [reflexivity|].
  simpl. rewrite Hc, IH. reflexivity.
Qed.

Lemma replaceClass_idem (cls : ascii -> bool) (r : ascii) (s : jsstring) :
  cls r = false ->
  replaceClass cls r (replaceClass cls r s) = replaceClass cls r s.
Proof. intros Hr. apply replaceClass_fixed, replaceClass_Forall, Hr. Qed.

Lemma cleanedSheetName_valid (name : option jsstring) :
  Forall (fun c => invalidSheetUnit c = false) (cleanedSheetName name).
Proof.
  unfold cleanedSheetName. apply trim_Forall, replaceClass_Forall.
  reflexivity.
Qed.

(** Sanitizing a sanitized sheet name trims it, and does nothing else. *)
Lemma sanitizeSheetName_twice (name : option jsstring) :
  sanitizeSheetName (Some (sanitizeSheetName name))
  = trim (sanitizeSheetName name).
Proof.
  unfold sanitizeSheetName at 2 3.
  destruct (cleanedSheetName name) as [|c r] eqn:Hc; [vm_compute; reflexivity|].
  assert (Hw : isWhiteSpace c = false).
  { apply (trim_head (replaceClass invalidSheetUnit " "%char
                        (orDefault name (str "Report")))).
    fold (cleanedSheetName name). rewrite Hc. reflexivity. }
  assert (Hv : Forall (fun c => invalidSheetUnit c = false) (c :: take 30 r)).
  { pose proof (cleanedSheetName_valid name) as Hv. rewrite Hc in Hv.
    change (c :: take 30 r) with (take 31 (c :: r)).
    apply Forall_take, Hv. }
  change (orElse (slice0 31 (c :: r)) (str "Report")) with (c :: take 30 r).
  set (s1 := c :: take 30 r) in *.
  unfold sanitizeSheetName, cleanedSheetName.
  change (orDefault (Some s1) (str "Report")) with s1.
  rewrite replaceClass_fixed by exact Hv.
  assert (Hlen : length (trim s1) <= 31).
  { etransitivity; [apply trim_length|]. subst s1. simpl.
    rewrite length_take. lia. }
  unfold slice0. rewrite take_ge by exact Hlen.
  assert (Hh : head (trim s1) = Some c).
  { unfold trim. rewrite trimStart_fixed.
    - apply trimEnd_head; [reflexivity|exact Hw].
    - intros d [= <-]. exact Hw. }
  destruct (trim s1); [discriminate Hh|reflexivity].
Qed.

Lemma safeFileUnits_idem (base : jsstring) :
  safeFileUnits (safeFileUnits base) = safeFileUnits base.
Proof.
  unfold safeFileUnits, slice0.
  unfold replaceClass at 1. rewrite <- List.firstn_map.
  fold (replaceClass unsafeFileUnit "_"%char
          (replaceClass unsafeFileUnit "_"%char base)).
  rewrite replaceClass_idem by reflexivity.
  rewrite take_take. reflexivity.
Qed.

(** Neither sanitizer is idempotent on every string: a second pass over a
    file name appends a second time stamp, and a second pass over a sheet
    name cut at 31 characters removes the white space the cut left at its
    end. *)
Lemma sanitize_not_idempotent :
  (sanitizeFilename 1763805600000 (str "q3") = str "q3_1763805600000.xlsx"
   /\ sanitizeFilename 1763805600000 (str "q3_1763805600000.xlsx")
      = str "q3_1763805600000_1763805600000.xlsx"
   /\ sanitizeFilename 1763805600000
        (sanitizeFilename 1763805600000 (str "q3"))
      <> sanitizeFilename 1763805600000 (str "q3"))
  /\ (sanitizeSheetName (Some (str "Quarterly revenue by region 25 totals"))
      = str "Quarterly revenue by region 25 "
      /\ sanitizeSheetName (Some (str "Quarterly revenue by region 25 "))
         = str "Quarterly revenue by region 25"
      /\ sanitizeSheetName
           (Some (sanitizeSheetName
                    (Some (str "Quarterly revenue by region 25 totals"))))
         <> sanitizeSheetName
              (Some (str "Quarterly revenue by region 25 totals"))).
Proof.
  repeat split; try (vm_compute; reflexivity); vm_compute; discriminate.
Qed.

End SheetName.

(** ** Export object keys *)

Section ObjectKey.
Import Js Eff ExcelExport.

Lemma safeFileUnits_safe (base : jsstring) :
  Forall (fun c => unsafeFileUnit c = false) (safeFileUnits base).
Proof.
  unfold safeFileUnits, slice0. apply Forall_take, replaceClass_Forall.
  reflexivity.
Qed.

(** A sanitized file name holds no slash. *)
Lemma sanitizeFilename_no_slash (now : Z) (name : jsstring) :
  "/"%char ∉ sanitizeFilename now name.
Proof.
  unfold sanitizeFilename. intros Hin.
  pose proof (safeFileUnits_safe
                (if endsWith (toLowerCase name) (str ".xlsx")
                 then default (str "undefined")
                        (first (split (str ".xlsx") name))
                        ++ str "_" ++ ofInt now ++ str ".xlsx"
                 else name ++ str "_" ++ ofInt now ++ str ".xlsx")) as Hs.
  rewrite Forall_forall in Hs. specialize (Hs _ Hin). discriminate Hs.
Qed.

(** The key determines the label and the file name. *)
Lemma objectKeyOf_inj (e1 e2 : gmap string jsstring) (f1 f2 : jsstring) :
  "/"%char ∉ f1 -> "/"%char ∉ f2 ->
  objectKeyOf e1 f1 = objectKeyOf e2 f2 ->
  dataSourceLabel e1 = dataSourceLabel e2 /\ f1 = f2.
Proof.
  intros H1 H2 Hk. unfold objectKeyOf in Hk.
  apply app_inv_head in Hk.
  change (str "/") with ["/"%char] in Hk. simpl in Hk.
  destruct (not_elem_of_app_cons_inv_r _ _ _ _ _ _ H2 H1 Hk) as (Hl & _ & Hf).
  split; [exact Hl|exact Hf].
Qed.

(** The object key is the report directory, the data-source label
    (the [PG_DATABASE] setting, or [db]) and the sanitized file name,
    joined by slashes; exports made under different data-source labels
    get different keys, whatever their file names and time stamps. *)
Theorem objectKey_namespaced (rt1 rt2 : Runtime) (args1 args2 : Args)
  (buffer1 buffer2 : Buffer) :
  dataSourceLabel (env rt1) <> dataSourceLabel (env rt2) ->
  Key (putObjectCommandOf rt1 args1 buffer1)
  = str "reports/" ++ dataSourceLabel (env rt1) ++ str "/"
    ++ finalFilenameOf rt1 args1
  /\ Key (putObjectCommandOf rt1 args1 buffer1)
     <> Key (putObjectCommandOf rt2 args2 buffer2).
Proof.
  intros Hne. split; [reflexivity|].
  simpl. intros Hk. apply Hne.
  apply (objectKeyOf_inj _ _ _ _
           (sanitizeFilename_no_slash _ _) (sanitizeFilename_no_slash _ _))
    in Hk.
  apply Hk.
Qed.

End ObjectKey.

(** ** Table-list parsing *)

Section Splitting.
Import Js.

Lemma startsWith_unit (c d : ascii) (r : jsstring) :
  startsWith (d :: r) [c] = bool_decide (c = d).
Proof.
  unfold startsWith. apply bool_decide_ext. split.
  - intros [k Hk]. simpl in Hk. congruence.
  - intros ->. exists r. reflexivity.
Qed.

(** Splitting at a one-unit separator: a piece free of the separator is
    cut off at the first separator. *)
Lemma splitFrom_unit_cut (c : ascii) (piece rest : jsstring) :
  c ∉ piece ->
  splitFrom [c] 0 (piece ++ c :: rest) = piece :: splitFrom [c] 0 rest.
Proof.
  induction piece as [|d piece IH]; intros Hc.
  - cbn [app splitFrom]. rewrite startsWith_unit.
    rewrite bool_decide_eq_true_2 by reflexivity. reflexivity.
  - apply not_elem_of_cons in Hc as [Hd Hc].
    cbn [app splitFrom]. rewrite startsWith_unit.
    rewrite bool_decide_eq_false_2 by exact Hd.
    rewrite (IH Hc). reflexivity.
Qed.

Lemma splitFrom_unit_last (c : ascii) (piece : jsstring) :
  c ∉ piece -> splitFrom [c] 0 piece = [piece].
Proof.
  induction piece as [|d piece IH]; intros Hc; [reflexivity|].
  apply not_elem_of_cons in Hc as [Hd Hc].
  cbn [splitFrom]. rewrite startsWith_unit.
  rewrite bool_decide_eq_false_2 by exact Hd.
  rewrite (IH Hc). reflexivity.
Qed.

(** Splitting a text at line feeds gives back its lines. *)
Lemma split_joinLines (line : jsstring) (lines : list jsstring) :
  Forall (fun l => Spec.newline ∉ l) (line :: lines) ->
  split lineFeed (Spec.joinLines (line :: lines)) = line :: lines.
Proof.
  change (split lineFeed) with (splitFrom [Spec.newline] 0).
  revert line. induction lines as [|l lines IH]; intros line H.
  - apply splitFrom_unit_last. inversion H; assumption.
  - inversion H as [|? ? Hl Hrest]; subst.
    change (Spec.joinLines (line :: l :: lines))
      with (line ++ Spec.newline :: Spec.joinLines (l :: lines)).
    rewrite splitFrom_unit_cut by exact Hl.
    rewrite (IH l Hrest). reflexivity.
Qed.

(** Every text is a first line followed by further lines. *)
Lemma joinLines_exists (s : jsstring) :
  exists line lines,
    Forall (fun l => Spec.newline ∉ l) (line :: lines)
    /\ s = Spec.joinLines (line :: lines).
Proof.
  induction s as [|c s (line & lines & Hall & ->)].
  - exists [], []. split; [|reflexivity].
    constructor; [apply not_elem_of_nil|constructor].
  - destruct (decide (c = Spec.newline)) as [->|Hc].
    + exists [], (line :: lines). split; [|reflexivity].
      constructor; [apply not_elem_of_nil|exact Hall].
    + exists (c :: line), lines. split.
      * inversion Hall; subst. constructor; [|assumption].
        apply not_elem_of_cons. split; [congruence|assumption].
      * destruct lines; reflexivity.
Qed.

(** The first piece of a row split at bars is its leading column. *)
Lemma split_bar_first (row : jsstring) :
  first (split (str "|") row) = Some (Spec.leadingColumn row).
Proof.
  change (split (str "|")) with (splitFrom [Spec.bar] 0).
  assert (H : exists t,
             splitFrom [Spec.bar] 0 row = Spec.leadingColumn row :: t).
  { induction row as [|c r [t IH]]; [exists []; reflexivity|].
    cbn [splitFrom Spec.leadingColumn]. rewrite startsWith_unit.
    destruct (decide (c = Spec.bar)) as [->|Hc].
    - rewrite bool_decide_eq_true_2 by reflexivity. eauto.
    - rewrite bool_decide_eq_false_2 by congruence. rewrite IH. eauto. }
  destruct H as [t ->]. reflexivity.
Qed.

End Splitting.

Section LeadingColumn.
Import Js.

Lemma dropWhile_app (p : ascii -> bool) (s t : jsstring) :
  dropWhile p (s ++ t)
  = match dropWhile p s with
    | [] => dropWhile p t
    | c :: r => (c :: r) ++ t
    end.
Proof.
  induction s as [|c s IH]; simpl.
  - destruct (dropWhile p t); reflexivity.
  - destruct (p c); [exact IH|reflexivity].
Qed.

(** [trimEnd], read from the front of the string. *)
Lemma trimEnd_cons (c : ascii) (r : jsstring) :
  trimEnd (c :: r)
  = match trimEnd r with
    | [] => if isWhiteSpace c then [] else [c]
    | d :: t => c :: d :: t
    end.
Proof.
  unfold trimEnd. rewrite reverse_cons, dropWhile_app.
  destruct (dropWhile isWhiteSpace (reverse r)) as [|x y] eqn:Hd.
  - simpl. destruct (isWhiteSpace c); reflexivity.
  - rewrite reverse_app. simpl.
    destruct (reverse (x :: y)) as [|d t] eqn:Hr; [|reflexivity].
    apply (f_equal length) in Hr. rewrite length_reverse in Hr.
    discriminate Hr.
Qed.

Lemma trimStart_leadingColumn (s : jsstring) :
  trimStart (Spec.leadingColumn s) = Spec.leadingColumn (trimStart s).
Proof.
  unfold trimStart. induction s as [|c r IH]; [reflexivity|].
  cbn [Spec.leadingColumn dropWhile].
  destruct (isWhiteSpace c) eqn:Hw.
  - destruct (decide (c = Spec.bar)) as [->|Hc]; [discriminate Hw|].
    cbn [dropWhile]. rewrite Hw. exact IH.
  - cbn [Spec.leadingColumn].
    destruct (decide (c = Spec.bar)); [reflexivity|].
    cbn [dropWhile]. rewrite Hw. reflexivity.
Qed.

Lemma trimEnd_leadingColumn (s : jsstring) :
  trimEnd (Spec.leadingColumn (trimEnd s)) = trimEnd (Spec.leadingColumn s).
Proof.
  induction s as [|c r IH]; [reflexivity|].
  rewrite (trimEnd_cons c r).
  cbn [Spec.leadingColumn].
  destruct (decide (c = Spec.bar)) as [->|Hc].
  - destruct (trimEnd r); cbn [Spec.leadingColumn isWhiteSpace];
      [reflexivity|].
    destruct (decide (Spec.bar = Spec.bar)); [reflexivity|contradiction].
  - rewrite (trimEnd_cons c (Spec.leadingColumn r)).
    destruct (trimEnd r) as [|d t] eqn:Ht.
    + rewrite <- IH. cbn [Spec.leadingColumn].
      change (trimEnd []) with (@nil ascii).
      destruct (isWhiteSpace c) eqn:Hw; [reflexivity|].
      cbn [Spec.leadingColumn].
      destruct (decide (c = Spec.bar)); [contradiction|].
      rewrite trimEnd_cons. change (trimEnd []) with (@nil ascii).
      rewrite Hw. reflexivity.
    + rewrite <- IH.
      change (Spec.leadingColumn (c :: d :: t))
        with (if decide (c = Spec.bar) then []
              else c :: Spec.leadingColumn (d :: t)).
      destruct (decide (c = Spec.bar)); [contradiction|].
      rewrite trimEnd_cons. reflexivity.
Qed.

(** Trimming the row first does not change its trimmed leading column. *)
Lemma trim_leadingColumn (row : jsstring) :
  trim (Spec.leadingColumn (trim row)) = trim (Spec.leadingColumn row).
Proof.
  unfold trim at 1 3.
  rewrite !trimStart_leadingColumn.
  rewrite (trimStart_fixed (trim row)) by apply trim_head.
  unfold trim. apply trimEnd_leadingColumn.
Qed.

End LeadingColumn.

Section Parsing.
Import Js Eff LangChainService.

(** The chain of maps and filters, row by row. *)
Lemma parse_rows (rows : list jsstring) :
  omap id
    (List.filter
       (fun table => match table with
                     | Some t => truthy t
                     | None => false
                     end)
       (map (fun line => trim <$> first (split (str "|") line))
          (List.filter
             (fun line => truthy line && bool_decide (line <> []))
             (map (fun line => trim line) rows))))
  = Spec.tableNames rows.
Proof.
  unfold Spec.tableNames.
  induction rows as [|row rows IH]; [reflexivity|].
  change (omap Spec.tableOfRow (row :: rows))
    with (match Spec.tableOfRow row with
          | Some name => name :: omap Spec.tableOfRow rows
          | None => omap Spec.tableOfRow rows
          end).
  cbn [map List.filter]. unfold Spec.tableOfRow at 1.
  destruct (decide (trim row = [])) as [He|Hne].
  - rewrite He. cbn [truthy andb]. exact IH.
  - destruct (trim row) as [|c r] eqn:Ht; [contradiction|].
    cbn [truthy andb].
    rewrite bool_decide_eq_true_2 by discriminate.
    cbn [map List.filter]. rewrite split_bar_first. cbn [fmap option_fmap option_map].
    rewrite <- Ht, trim_leadingColumn.
    destruct (decide (trim (Spec.leadingColumn row) = [])) as [Hn|Hn].
    + rewrite Hn. cbn [truthy]. exact IH.
    + destruct (trim (Spec.leadingColumn row)) as [|d t] eqn:Hl;
        [contradiction|].
      cbn [truthy]. rewrite <- IH. reflexivity.
Qed.

Lemma parseExistingTables_joinLines (header : jsstring)
  (rows : list jsstring) :
  Forall (fun l => Spec.newline ∉ l) (header :: rows) ->
  parseExistingTables (Spec.joinLines (header :: rows)) = Spec.tableNames rows.
Proof.
  intros H. unfold parseExistingTables.
  rewrite (split_joinLines header rows H).
  cbn [drop]. apply parse_rows.
Qed.

(** X22.  An answer without a line feed, such as a one-line serialization
    of the rows, is all header: it yields no table. *)
Lemma parseExistingTables_one_line (tablesResult : jsstring) :
  Spec.newline ∉ tablesResult -> parseExistingTables tablesResult = [].
Proof.
  intros H.
  apply (parseExistingTables_joinLines tablesResult []).
  constructor; [exact H|constructor].
Qed.

(** C9.  On a result made of a header line and rows, the parser returns,
    in order, the trimmed leading column of every row that is not blank
    and whose leading column holds a name; the header contributes
    nothing.  Every string is such a result, so the parser is defined on
    every string.  The enumeration built on it never throws: it returns
    the parsed names, or the empty sequence when the introspection query
    fails. *)
Theorem parseExistingTables_defensive (db : Database)
  (config : UserDatasourceConfig) (basic : SqlDatabase) (tr : list Event)
  (header : jsstring) (rows : list jsstring) :
  Spec.newline ∉ header ->
  Forall (fun row => Spec.newline ∉ row) rows ->
  parseExistingTables (Spec.joinLines (header :: rows)) = Spec.tableNames rows
  /\ (forall s, exists h rs,
         Forall (fun l => Spec.newline ∉ l) (h :: rs)
         /\ s = Spec.joinLines (h :: rs))
  /\ exists tables,
      listExistingTables db config basic tr
      = (Returned tables,
         tr ++ [EvRun (sd_params basic) (getTablesQuery (type config))])
      /\ match db_run db (sd_params basic) (getTablesQuery (type config)) with
         | inl _ => tables = []
         | inr tablesResult => tables = parseExistingTables tablesResult
         end.
Proof.
  intros Hh Hr. split; [|split].
  - apply parseExistingTables_joinLines. constructor; assumption.
  - apply joinLines_exists.
  - rewrite listExistingTables_total. eexists. split; [reflexivity|].
    destruct (db_run db (sd_params basic) (getTablesQuery (type config)));
      reflexivity.
Qed.

End Parsing.

Section ParsingExamples.
Import Js Eff LangChainService ExcelExport.

Lemma parseExistingTables_defensive_witness :
  Spec.newline ∉ str "table_name"
  /\ Forall (fun row => Spec.newline ∉ row) Examples.catalogRows
  /\ parseExistingTables
       (Spec.joinLines (str "table_name" :: Examples.catalogRows))
     = [str "users"; str "orders"]
  /\ fst (listExistingTables Examples.catalogDenied Examples.shopConfig
            {| sd_params := basicOptionsOf Examples.shopConfig;
               sd_allTables := [] |} [])
     = Returned [].
Proof.
  assert (Hh : Spec.newline ∉ str "table_name").
  { apply (bool_decide_unpack _). vm_compute. exact I. }
  assert (Hr : Forall (fun row => Spec.newline ∉ row) Examples.catalogRows).
  { apply (bool_decide_unpack _). vm_compute. exact I. }
  destruct (parseExistingTables_defensive Examples.catalogDenied
              Examples.shopConfig
              {| sd_params := basicOptionsOf Examples.shopConfig;
                 sd_allTables := [] |} []
              (str "table_name") Examples.catalogRows Hh Hr)
    as (Hparse & _ & tables & Hrun & Htables).
  split; [exact Hh|]. split; [exact Hr|]. split; [exact Hparse|].
  rewrite Hrun. simpl in Htables. rewrite Htables. reflexivity.
Defined.

Lemma objectKey_namespaced_witness :
  dataSourceLabel (env (Examples.runtimeFor "sales"))
  <> dataSourceLabel (env (Examples.runtimeFor "hr"))
  /\ Key (putObjectCommandOf (Examples.runtimeFor "sales") Examples.oneRow
            Examples.smallWorkbook)
     = str "reports/sales/report_sales_2025-11-22_1763805600000.xlsx"
  /\ Key (putObjectCommandOf (Examples.runtimeFor "sales") Examples.oneRow
            Examples.smallWorkbook)
     <> Key (putObjectCommandOf (Examples.runtimeFor "hr") Examples.oneRow
               Examples.smallWorkbook).
Proof.
  assert (Hne : dataSourceLabel (env (Examples.runtimeFor "sales"))
                <> dataSourceLabel (env (Examples.runtimeFor "hr"))).
  { vm_compute. discriminate. }
  split; [exact Hne|].
  destruct (objectKey_namespaced (Examples.runtimeFor "sales")
              (Examples.runtimeFor "hr") Examples.oneRow Examples.oneRow
              Examples.smallWorkbook Examples.smallWorkbook Hne)
    as [Hkey Hdiff].
  split; [|exact Hdiff].
  rewrite Hkey. vm_compute. reflexivity.
Defined.

End ParsingExamples.

(** * Further properties *)

(** ** Sanitized names *)

Section SanitizedNames.
Import Js ExcelExport.

(** X1.  Whatever name is asked for, the sheet name handed to the
    serializer is not empty, has at most 31 units and holds none of the
    units [: \ / ? * [ ]]. *)
Theorem sanitizeSheetName_wellformed (name : option jsstring) :
  sanitizeSheetName name <> []
  /\ length (sanitizeSheetName name) <= 31
  /\ Forall (fun c => invalidSheetUnit c = false) (sanitizeSheetName name).
Proof.
  unfold sanitizeSheetName, slice0.
  pose proof (cleanedSheetName_valid name) as Hv.
  destruct (cleanedSheetName name) as [|c r].
  - split; [discriminate|]. split; [vm_compute; lia|].
    vm_compute. repeat constructor.
  - change (orElse (take 31 (c :: r)) (str "Report"))
      with (take 31 (c :: r)).
    split; [discriminate|]. split.
    + rewrite length_take. lia.
    + apply Forall_take, Hv.
Qed.

Lemma safeFileUnits_length (base : jsstring) :
  length (safeFileUnits base) <= 200.
Proof. unfold safeFileUnits, slice0. rewrite length_take. lia. Qed.

(** X2.  Whatever name is asked for and whatever the clock says, the file
    name is not empty, has at most 200 units and is made of letters,
    digits, dots, underscores and hyphens only. *)
Theorem sanitizeFilename_wellformed (now : Z) (name : jsstring) :
  sanitizeFilename now name <> []
  /\ length (sanitizeFilename now name) <= 200
  /\ Forall (fun c => unsafeFileUnit c = false) (sanitizeFilename now name).
Proof.
  unfold sanitizeFilename. split; [|split].
  - unfold safeFileUnits, slice0, replaceClass.
    destruct (endsWith (toLowerCase name) (str ".xlsx")).
    + destruct (default (str "undefined") (first (split (str ".xlsx") name)));
        discriminate.
    + destruct name; discriminate.
  - apply safeFileUnits_length.
  - apply safeFileUnits_safe.
Qed.

Lemma toLowerUnit_dot (c : ascii) :
  toLowerUnit c = Facts.dot -> c = Facts.dot.
Proof.
  destruct c as [[] [] [] [] [] [] [] []]; vm_compute; intros H;
    first [reflexivity | discriminate H].
Qed.

(** A name without a dot does not end in the extension. *)
Lemma endsWith_xlsx_no_dot (stem : jsstring) :
  Facts.dot ∉ stem -> endsWith (toLowerCase stem) (str ".xlsx") = false.
Proof.
  intros Hd. unfold endsWith. apply bool_decide_eq_false.
  intros [k Hk]. apply Hd.
  assert (Hin : Facts.dot ∈ toLowerCase stem).
  { rewrite Hk. apply elem_of_app. right. left. }
  unfold toLowerCase in Hin. apply list_elem_of_In, in_map_iff in Hin.
  destruct Hin as (c & Hc & Hin). apply toLowerUnit_dot in Hc. subst c.
  apply list_elem_of_In. exact Hin.
Qed.

Lemma endsWith_xlsx_app (stem : jsstring) :
  endsWith (toLowerCase (stem ++ str ".xlsx")) (str ".xlsx") = true.
Proof.
  unfold endsWith. apply bool_decide_eq_true.
  exists (toLowerCase stem). unfold toLowerCase. rewrite map_app. reflexivity.
Qed.

(** Splitting at the extension a name whose only dot starts the
    extension. *)
Lemma split_xlsx_stem (stem : jsstring) :
  Facts.dot ∉ stem ->
  first (split (str ".xlsx") (stem ++ str ".xlsx")) = Some stem.
Proof.
  intros Hd.
  change (split (str ".xlsx")) with (splitFrom (str ".xlsx") 0).
  assert (H : exists t,
             splitFrom (str ".xlsx") 0 (stem ++ str ".xlsx") = stem :: t).
  { induction stem as [|c r IH].
    - eexists. vm_compute. reflexivity.
    - apply not_elem_of_cons in Hd as [Hc Hr].
      destruct (IH Hr) as [t Ht].
      cbn [app splitFrom].
      replace (startsWith (c :: r ++ str ".xlsx") (str ".xlsx")) with false.
      + rewrite Ht. eauto.
      + symmetry. unfold startsWith. apply bool_decide_eq_false.
        intros [k Hk]. apply Hc. simpl in Hk.
        injection Hk as Hk _. rewrite Hk. reflexivity. }
  destruct H as [t ->]. reflexivity.
Qed.

(** X3.  For a name without a dot, asking for [name] or for [name.xlsx]
    gives the same file name: the time stamp goes between the name and
    the one extension. *)
Theorem sanitizeFilename_extension (now : Z) (stem : jsstring) :
  Facts.dot ∉ stem ->
  sanitizeFilename now (stem ++ str ".xlsx")
  = safeFileUnits (stem ++ str "_" ++ ofInt now ++ str ".xlsx")
  /\ sanitizeFilename now (stem ++ str ".xlsx") = sanitizeFilename now stem.
Proof.
  intros Hd. unfold sanitizeFilename.
  rewrite endsWith_xlsx_app, (endsWith_xlsx_no_dot stem Hd).
  rewrite (split_xlsx_stem stem Hd). split; reflexivity.
Qed.

Lemma sanitizeFilename_extension_witness :
  (Facts.dot ∉ str "Q3 sales")
  /\ sanitizeFilename 1763805600000 (str "Q3 sales.xlsx")
     = str "Q3_sales_1763805600000.xlsx"
  /\ sanitizeFilename 1763805600000 (str "Q3 sales.xlsx")
     = sanitizeFilename 1763805600000 (str "Q3 sales").
Proof.
  assert (Hd : Facts.dot ∉ str "Q3 sales").
  { apply (bool_decide_unpack _). vm_compute. exact I. }
  split; [exact Hd|].
  exact (sanitizeFilename_extension 1763805600000 (str "Q3 sales") Hd).
Defined.

End SanitizedNames.

(** ** The upload, from the tool function *)

Section UploadOutcomes.
Import Js Eff ExcelExport.

Variable rt : Runtime.

Ltac next_upload k H :=
  rewrite uploadLoop_step by (unfold maxRetries; lia);
  change (uploadsIn _) with k; rewrite H;
  try (let b := eval vm_compute in (maxRetries <=? S k) in
       change (maxRetries <=? S k) with b; cbv iota).

(** The loop, by cases on the answers to the three uploads. *)
Lemma uploadLoop_cases (cmd : PutObjectCommand) :
  exec (uploadLoop rt cmd maxRetries 0)
  = match s3Send rt 0 cmd with
    | None => (Returned tt, take 1 (Spec.threeAttempts cmd))
    | Some _ =>
        match s3Send rt 1 cmd with
        | None => (Returned tt, take 3 (Spec.threeAttempts cmd))
        | Some _ =>
            match s3Send rt 2 cmd with
            | None => (Returned tt, Spec.threeAttempts cmd)
            | Some uploadError =>
                (Thrown (newError (uploadFailedMessage uploadError)),
                 Spec.threeAttempts cmd)
            end
        end
    end.
Proof.
  unfold exec. change (uploadLoop rt cmd maxRetries) with (uploadLoop rt cmd 3).
  destruct (s3Send rt 0 cmd) as [e0|] eqn:H0.
  - next_upload 0 H0.
    destruct (s3Send rt 1 cmd) as [e1|] eqn:H1.
    + next_upload 1 H1.
      destruct (s3Send rt 2 cmd) as [e2|] eqn:H2; next_upload 2 H2;
        reflexivity.
    + next_upload 1 H1. reflexivity.
  - next_upload 0 H0. reflexivity.
Qed.

(** X4.  Whatever the uploader answers, the loop makes one, two or three
    uploads of the same command, waits 2 s after the first failure and 4 s
    after the second, never waits after its last upload, and waits 6 s in
    all at most. *)
Theorem uploadLoop_trace (cmd : PutObjectCommand) :
  exists n,
    (n = 1 \/ n = 3 \/ n = 5)
    /\ snd (exec (uploadLoop rt cmd maxRetries 0))
       = take n (Spec.threeAttempts cmd)
    /\ last (snd (exec (uploadLoop rt cmd maxRetries 0))) = Some (EvS3Send cmd)
    /\ (Facts.totalWait (snd (exec (uploadLoop rt cmd maxRetries 0))) <= 6000)%Z.
Proof.
  rewrite uploadLoop_cases.
  destruct (s3Send rt 0 cmd);
    [destruct (s3Send rt 1 cmd); [destruct (s3Send rt 2 cmd)|]|].
  - exists 5. repeat split; [tauto|vm_compute; discriminate].
  - exists 5. repeat split; [tauto|vm_compute; discriminate].
  - exists 3. repeat split; [tauto|vm_compute; discriminate].
  - exists 1. repeat split; [tauto|vm_compute; discriminate].
Qed.

Variable args : Args.
Variable buffer : Buffer.

(** With rows and a workbook within the ceiling, the tool function runs
    the upload loop and turns its outcome into a text. *)
Lemma func_upload :
  Facts.uploadable rt args buffer ->
  exec (func rt args)
  = match exec (uploadLoop rt (putObjectCommandOf rt args buffer)
                  maxRetries 0) with
    | (Returned _, tr) =>
        (Returned
           (resultJson
              (Facts.publicUrlOf rt (putObjectCommandOf rt args buffer))
              (finalFilenameOf rt args)), tr)
    | (Thrown e, tr) => (Returned (failedMessage e), tr)
    | (OutOfFuel, tr) => (OutOfFuel, tr)
    end.
Proof.
  intros ((row & rows & Hdata) & Hxlsx & Hsize).
  destruct (wellFormed_cases _ _ _ Hdata) as [Ht Ha].
  assert (Hl : tooLarge buffer = false).
  { unfold tooLarge. apply N.ltb_ge. lia. }
  unfold exec, func, tryCatch, bind.
  rewrite Ht, Ha. cbn [negb]. cbv beta iota.
  rewrite Hxlsx. unfold liftSum, ret. cbv beta iota. rewrite Hl.
  cbv beta iota.
  destruct (uploadLoop rt (putObjectCommandOf rt args buffer) maxRetries 0 [])
    as [[[]|e|] tr]; reflexivity.
Qed.


(** X6.  With rows, a workbook of at most 50 MB and three uploads that all
    fail, the tool function does not throw: after the third upload it
    returns the failure text, which carries the message of the last
    error. *)
Theorem func_upload_exhausted (e0 e1 e2 : Error) :
  Facts.uploadable rt args buffer ->
  s3Send rt 0 (putObjectCommandOf rt args buffer) = Some e0 ->
  s3Send rt 1 (putObjectCommandOf rt args buffer) = Some e1 ->
  s3Send rt 2 (putObjectCommandOf rt args buffer) = Some e2 ->
  exec (func rt args)
  = (Returned
       (str "Failed to generate and upload Excel file to S3: S3 upload failed after 3 attempts: "
        ++ err_message e2),
     Spec.threeAttempts (putObjectCommandOf rt args buffer)).
Proof.
  intros Hup H0 H1 H2.
  rewrite (func_upload Hup), uploadLoop_cases, H0, H1, H2.
  reflexivity.
Qed.

End UploadOutcomes.

Section SerializerFailure.
Import Js Eff ExcelExport.

(** X7.  When the serializer throws, the tool function makes no call to
    the outside and returns the failure text with the error's message, or
    with the error's name when the message is empty. *)
Theorem func_serializer_throws (rt : Runtime) (args : Args) (row : Value)
  (rows : list Value) (e : Error) :
  data args = Array (row :: rows) ->
  xlsxWrite rt (data args) (sanitizeSheetName (sheetName args)) = inl e ->
  exec (func rt args)
  = (Returned
       (str "Failed to generate and upload Excel file to S3: "
        ++ orElse (err_message e) (errorToString e)), [])
  /\ (err_message e = [] -> errorToString e = err_name e).
Proof.
  intros Hd Hx. destruct (wellFormed_cases _ _ _ Hd) as [Ht Ha]. split.
  - unfold exec, func, tryCatch, bind. rewrite Ht, Ha. simpl negb. cbv iota.
    rewrite Hx. reflexivity.
  - intros Hm. unfold errorToString. rewrite Hm.
    destruct (err_name e); reflexivity.
Qed.

End SerializerFailure.

Section UploadOutcomeExamples.
Import Js Eff ExcelExport.



Lemma func_upload_exhausted_witness :
  exec (func Examples.runtimeAlwaysFailing Examples.oneRow)
  = (Returned
       (str "Failed to generate and upload Excel file to S3: S3 upload failed after 3 attempts: socket hang up"),
     Spec.threeAttempts Examples.someCommand).
Proof.
  assert (Hup : Facts.uploadable Examples.runtimeAlwaysFailing
                  Examples.oneRow Examples.smallWorkbook).
  { split; [eexists; eexists; reflexivity|].
    split; [reflexivity|]. vm_compute. discriminate. }
  exact (func_upload_exhausted Examples.runtimeAlwaysFailing Examples.oneRow
           Examples.smallWorkbook Examples.boom Examples.boom Examples.boom
           Hup eq_refl eq_refl eq_refl).
Defined.

Lemma func_serializer_throws_witness :
  exec (func MoreExamples.runtimeBadWorkbook Examples.oneRow)
  = (Returned
       (str "Failed to generate and upload Excel file to S3: Sheet name too long"),
     []).
Proof.
  exact (proj1 (func_serializer_throws MoreExamples.runtimeBadWorkbook
                  Examples.oneRow _ _ (newError (str "Sheet name too long"))
                  eq_refl eq_refl)).
Defined.

End UploadOutcomeExamples.

(** ** The resolver and its callers *)

Section ResolverMore.
Import Js Eff LangChainService SqlToolkitFactory.

(** X8.  The outcome of the setup and the calls it makes do not depend on
    what the introspection query answers: two databases that answer the
    two connections and the probe alike give the same result, whatever
    their catalogs say. *)
Theorem getSqlDatabase_ignores_introspection (db1 db2 : Database)
  (config : UserDatasourceConfig) :
  db_connect db1 (basicOptionsOf config)
  = db_connect db2 (basicOptionsOf config) ->
  db_connect db1 (optionsOf config) = db_connect db2 (optionsOf config) ->
  db_run db1 (optionsOf config) (str "SELECT 1 as test")
  = db_run db2 (optionsOf config) (str "SELECT 1 as test") ->
  exec (getSqlDatabase db1 (Some config))
  = exec (getSqlDatabase db2 (Some config)).
Proof.
  intros H1 H2 H3. rewrite !getSqlDatabase_cases, !getTestQuery_const.
  rewrite H1, H2, H3. reflexivity.
Qed.

Lemma getSqlDatabase_ignores_introspection_witness :
  db_run Examples.catalogDenied (basicOptionsOf Examples.shopConfig)
    (getTablesQuery (str "postgres"))
  <> db_run MoreExamples.catalogReadable (basicOptionsOf Examples.shopConfig)
       (getTablesQuery (str "postgres"))
  /\ exec (getSqlDatabase Examples.catalogDenied (Some Examples.shopConfig))
     = exec (getSqlDatabase MoreExamples.catalogReadable
               (Some Examples.shopConfig)).
Proof.
  split; [vm_compute; discriminate|].
  exact (getSqlDatabase_ignores_introspection Examples.catalogDenied
           MoreExamples.catalogReadable Examples.shopConfig
           eq_refl eq_refl eq_refl).
Defined.

(** X9.  The toolkit factory throws the configuration error, with no call
    to the outside, when no configuration is given.  Given one, it makes
    the calls of the two-phase setup and throws what the setup throws;
    when it returns, the toolkit holds the model it was given and a handle
    opened with the configuration's fields that shows every table found. *)
Theorem createSqlToolkit_outcome (db : Database) (llm : LLM)
  (config : UserDatasourceConfig) :
  exec (createSqlToolkit db llm None)
  = (Thrown (newError configRequiredMessage), [])
  /\ match exec (createSqlToolkit db llm (Some config)) with
     | (Returned toolkit, tr) =>
         toolkit_llm toolkit = llm
         /\ sd_params (toolkit_db toolkit) = optionsOf config
         /\ visibleTables (toolkit_db toolkit)
            = sd_allTables (toolkit_db toolkit)
         /\ exec (getSqlDatabase db (Some config))
            = (Returned (toolkit_db toolkit), tr)
         /\ tr = Spec.setupTrace config
     | (Thrown e, tr) =>
         exec (getSqlDatabase db (Some config)) = (Thrown e, tr)
     | (OutOfFuel, _) => False
     end.
Proof.
  split; [reflexivity|].
  unfold exec, createSqlToolkit, bind.
  pose proof (getSqlDatabase_cases db config) as Hc. unfold exec in Hc.
  rewrite Hc.
  destruct (db_connect db (basicOptionsOf config)); [reflexivity|].
  destruct (db_connect db (optionsOf config)); [reflexivity|].
  destruct (db_run db (optionsOf config) (getTestQuery (type config)));
    [reflexivity|].
  cbn [ret toolkit_llm toolkit_db sd_params sd_allTables].
  repeat split. apply visibleTables_unrestricted.
Qed.

End ResolverMore.

(** ** Names returned by the table-list parser *)

Section ParsedNames.
Import Js Eff LangChainService.

Lemma leadingColumn_Forall (P : ascii -> Prop) (row : jsstring) :
  Forall P row -> Forall P (Spec.leadingColumn row).
Proof.
  induction 1 as [|c r Hc _ IH]; [constructor|].
  cbn [Spec.leadingColumn]. destruct (decide (c = Spec.bar)); constructor;
    assumption.
Qed.

Lemma leadingColumn_no_bar (row : jsstring) :
  Forall (fun c => c <> Spec.bar) (Spec.leadingColumn row).
Proof.
  induction row as [|c r IH]; [constructor|].
  cbn [Spec.leadingColumn]. destruct (decide (c = Spec.bar)); constructor;
    assumption.
Qed.

(** X10.  Every name the parser returns is not empty, has no white space
    at either end, and holds no bar and no line feed. *)
Theorem parseExistingTables_names (tablesResult table : jsstring) :
  table ∈ parseExistingTables tablesResult ->
  table <> [] /\ trim table = table
  /\ (Spec.bar ∉ table) /\ (Spec.newline ∉ table).
Proof.
  destruct (joinLines_exists tablesResult) as (header & rows & Hall & ->).
  rewrite (parseExistingTables_joinLines header rows Hall).
  unfold Spec.tableNames. intros Hin.
  apply list_elem_of_omap in Hin as (row & Hrow & Ht).
  unfold Spec.tableOfRow in Ht.
  destruct (decide (trim row = [])); [discriminate|].
  destruct (decide (trim (Spec.leadingColumn row) = [])) as [|Hne];
    [discriminate|].
  injection Ht as <-. split; [exact Hne|]. split; [apply trim_idem|].
  split.
  - intros Hin.
    pose proof (trim_Forall _ _ (leadingColumn_no_bar row)) as Hf.
    rewrite Forall_forall in Hf. exact (Hf _ Hin eq_refl).
  - intros Hin.
    inversion Hall as [|? ? _ Hrows]; subst.
    rewrite Forall_forall in Hrows. specialize (Hrows _ Hrow).
    assert (Hf : Forall (fun c => c <> Spec.newline) row).
    { apply Forall_forall. intros c Hc ->. exact (Hrows Hc). }
    pose proof (trim_Forall _ _ (leadingColumn_Forall _ _ Hf)) as Hf'.
    rewrite Forall_forall in Hf'. exact (Hf' _ Hin eq_refl).
Qed.

Lemma parseExistingTables_names_witness :
  (str "orders"
  ∈ parseExistingTables
      (Spec.joinLines (str "table_name" :: Examples.catalogRows)))
  /\ trim (str "orders") = str "orders".
Proof.
  assert (Hin : str "orders"
                ∈ parseExistingTables
                    (Spec.joinLines
                       (str "table_name" :: Examples.catalogRows))).
  { apply (bool_decide_unpack _). vm_compute. exact I. }
  split; [exact Hin|].
  exact (proj1 (proj2 (parseExistingTables_names _ _ Hin))).
Defined.

Lemma parseExistingTables_one_line_witness :
  (Spec.newline ∉ str "[{table_name:users},{table_name:orders}]")
  /\ parseExistingTables (str "[{table_name:users},{table_name:orders}]")
     = [].
Proof.
  assert (H : Spec.newline
              ∉ str "[{table_name:users},{table_name:orders}]").
  { apply (bool_decide_unpack _). vm_compute. exact I. }
  split; [exact H|].
  exact (parseExistingTables_one_line _ H).
Defined.

End ParsedNames.

Section LineEnds.
Import Js Eff LangChainService.

Lemma trimEnd_snoc (s : jsstring) (w : ascii) :
  isWhiteSpace w = true -> trimEnd (s ++ [w]) = trimEnd s.
Proof.
  intros Hw. unfold trimEnd. rewrite reverse_snoc.
  cbn [dropWhile]. rewrite Hw. reflexivity.
Qed.

Lemma trim_snoc (s : jsstring) (w : ascii) :
  isWhiteSpace w = true -> trim (s ++ [w]) = trim s.
Proof.
  intros Hw. unfold trim, trimStart. rewrite dropWhile_app.
  destruct (dropWhile isWhiteSpace s) as [|c r].
  - cbn [dropWhile]. rewrite Hw. reflexivity.
  - apply trimEnd_snoc, Hw.
Qed.

Lemma leadingColumn_snoc (row : jsstring) (w : ascii) :
  w <> Spec.bar ->
  Spec.leadingColumn (row ++ [w]) = Spec.leadingColumn row
  \/ Spec.leadingColumn (row ++ [w]) = Spec.leadingColumn row ++ [w].
Proof.
  intros Hw. induction row as [|c r IH]; cbn [app Spec.leadingColumn].
  - right. destruct (decide (w = Spec.bar)); [contradiction|reflexivity].
  - destruct (decide (c = Spec.bar)); [left; reflexivity|].
    destruct IH as [-> | ->]; [left|right]; reflexivity.
Qed.

(** A carriage return at the end of a row changes nothing. *)
Lemma tableOfRow_carriageReturn (row : jsstring) :
  Spec.tableOfRow (row ++ [Facts.carriageReturn]) = Spec.tableOfRow row.
Proof.
  unfold Spec.tableOfRow.
  rewrite (trim_snoc row Facts.carriageReturn eq_refl).
  assert (Hl : trim (Spec.leadingColumn (row ++ [Facts.carriageReturn]))
               = trim (Spec.leadingColumn row)).
  { destruct (leadingColumn_snoc row Facts.carriageReturn) as [-> | ->];
      [discriminate|reflexivity|].
    apply trim_snoc. reflexivity. }
  rewrite Hl. reflexivity.
Qed.

Lemma joinLines_Forall_carriageReturn (lines lines' : list jsstring) :
  Forall (fun l => Spec.newline ∉ l) lines ->
  Forall2 (fun l l' => l' = l \/ l' = l ++ [Facts.carriageReturn])
    lines lines' ->
  Forall (fun l => Spec.newline ∉ l) lines'.
Proof.
  intros Hall H2. induction H2 as [|l l' ls ls' Hl _ IH]; [constructor|].
  inversion Hall; subst. constructor; [|apply IH; assumption].
  destruct Hl as [-> | ->]; [assumption|].
  intros Hin. apply elem_of_app in Hin as [Hin|Hin]; [contradiction|].
  apply list_elem_of_singleton in Hin. discriminate Hin.
Qed.

(** X11.  Line ends of Windows are tolerated: putting a carriage return at
    the end of any of the rows, and changing the header at will, leaves
    the table names unchanged. *)
Theorem parseExistingTables_carriageReturn (header header' : jsstring)
  (rows rows' : list jsstring) :
  Forall (fun l => Spec.newline ∉ l) (header :: rows) ->
  Spec.newline ∉ header' ->
  Forall2 (fun row row' => row' = row \/ row' = row ++ [Facts.carriageReturn])
    rows rows' ->
  parseExistingTables (Spec.joinLines (header' :: rows'))
  = parseExistingTables (Spec.joinLines (header :: rows)).
Proof.
  intros Hall Hh H2.
  inversion Hall as [|? ? _ Hrows]; subst.
  rewrite (parseExistingTables_joinLines header rows Hall).
  rewrite (parseExistingTables_joinLines header' rows').
  - unfold Spec.tableNames.
    induction H2 as [|row row' rs rs' Hrow _ IH]; [reflexivity|].
    inversion Hrows; subst.
    change (omap Spec.tableOfRow (?r :: ?l))
      with (match Spec.tableOfRow r with
            | Some name => name :: omap Spec.tableOfRow l
            | None => omap Spec.tableOfRow l
            end).
    assert (Ht : Spec.tableOfRow row' = Spec.tableOfRow row).
    { destruct Hrow as [-> | ->];
        [reflexivity|apply tableOfRow_carriageReturn]. }
    cbn [omap list_omap]. rewrite Ht, IH; [reflexivity| |assumption].
    constructor; [inversion Hall|]; assumption.
  - constructor; [exact Hh|].
    apply (joinLines_Forall_carriageReturn rows rows' Hrows H2).
Qed.

End LineEnds.

Section LineEndExamples.
Import Js Eff LangChainService.

Lemma parseExistingTables_carriageReturn_witness :
  parseExistingTables
    (Spec.joinLines
       ((str "table_name" ++ [Facts.carriageReturn])
        :: MoreExamples.windowsRows))
  = [str "users"; str "orders"].
Proof.
  assert (Hall : Forall (fun l => Spec.newline ∉ l)
                   (str "table_name" :: MoreExamples.unixRows)).
  { apply (bool_decide_unpack _). vm_compute. exact I. }
  assert (Hh : Spec.newline ∉ str "table_name" ++ [Facts.carriageReturn]).
  { apply (bool_decide_unpack _). vm_compute. exact I. }
  assert (H2 : Forall2
                 (fun row row' =>
                    row' = row \/ row' = row ++ [Facts.carriageReturn])
                 MoreExamples.unixRows MoreExamples.windowsRows).
  { repeat constructor; (right; reflexivity) || (left; reflexivity). }
  rewrite (parseExistingTables_carriageReturn (str "table_name")
             (str "table_name" ++ [Facts.carriageReturn])
             MoreExamples.unixRows MoreExamples.windowsRows Hall Hh H2).
  vm_compute. reflexivity.
Defined.

End LineEndExamples.

(** ** The registry, further *)

Section RegistryMore.
Import Js Eff LangChainService.

(** X12.  [getLLM] returns [undefined] exactly when no backend was
    initialized, whatever provider is asked for; otherwise it returns one
    of the initialized backends. *)
Theorem getLLM_undefined (svc : Service) (provider : option jsstring) :
  (getLLM svc provider = None
   <-> openaiLLM svc = None /\ anthropicLLM svc = None)
  /\ forall llm,
      getLLM svc provider = Some llm ->
      match llm with
      | OpenAI m => openaiLLM svc = Some m
      | Anthropic m => anthropicLLM svc = Some m
      end.
Proof.
  unfold getLLM, firstAvailable.
  destruct provider as [p|];
    [destruct (decide (p = str "openai"));
     [|destruct (decide (p = str "anthropic"))]|];
    destruct (openaiLLM svc), (anthropicLLM svc);
    (split; [split; [intros H; try discriminate H; split; reflexivity
                    |intros [H1 H2]; try discriminate H1; try discriminate H2;
                     reflexivity]
            |intros llm [= <-]; reflexivity]).
Qed.

Lemma envTruthy_Some (e : gmap string jsstring) (name : string)
  (v : jsstring) :
  envTruthy e name = Some v -> e !! name = Some v /\ v <> [].
Proof.
  unfold envTruthy. destruct (e !! name) as [w|]; [|discriminate].
  destruct w; [discriminate|]. intros [= <-]. split; [reflexivity|discriminate].
Qed.

(** X13.  Listing and selecting agree after start-up: every descriptor
    listed is available, and asking for its identifier selects a backend
    of the listed provider and model, holding the key configured for that
    provider. *)
Theorem getAvailableLLMs_selectable (e : gmap string jsstring)
  (d : LLMDescriptor) :
  d ∈ getAvailableLLMs (initializeLLMs e) ->
  llm_isAvailable d = true
  /\ exists llm,
      getLLM (initializeLLMs e) (Some (llm_id d)) = Some llm
      /\ Facts.providerOf llm = llm_provider d
      /\ Facts.modelOf llm = llm_model d
      /\ ((llm_id d = str "openai"
           /\ e !! "OPENAI_API_KEY" = Some (Facts.apiKeyOf llm))
          \/ (llm_id d = str "anthropic"
              /\ e !! "ANTHROPIC_API_KEY" = Some (Facts.apiKeyOf llm))).
Proof.
  unfold getAvailableLLMs, initializeLLMs, getLLM. cbn [openaiLLM anthropicLLM].
  destruct (envTruthy e "OPENAI_API_KEY") as [ko|] eqn:Ho;
    destruct (envTruthy e "ANTHROPIC_API_KEY") as [ka|] eqn:Ha;
    cbn [app]; intros Hin;
    repeat (apply elem_of_cons in Hin as [-> | Hin]);
    try (apply elem_of_nil in Hin; contradiction);
    (split; [reflexivity|]);
    cbn [llm_id]; eexists; (split; [reflexivity|]);
    (split; [reflexivity|]); (split; [reflexivity|]).
  all: first
    [ left; split; [reflexivity|]; exact (proj1 (envTruthy_Some _ _ _ Ho))
    | right; split; [reflexivity|]; exact (proj1 (envTruthy_Some _ _ _ Ha)) ].
Qed.

Lemma getAvailableLLMs_selectable_witness :
  exists llm,
    getLLM (initializeLLMs MoreExamples.bothKeys) (Some (str "anthropic"))
    = Some llm
    /\ Facts.modelOf llm = str "claude-3-haiku-20240307"
    /\ Facts.apiKeyOf llm = str "sk-two".
Proof.
  assert (Hin : {| llm_id := str "anthropic";
                   llm_name := str "Anthropic Claude 3 Haiku";
                   llm_provider := str "anthropic";
                   llm_model := str "claude-3-haiku-20240307";
                   llm_isAvailable := true |}
                ∈ getAvailableLLMs (initializeLLMs MoreExamples.bothKeys)).
  { vm_compute. right. left. }
  destruct (getAvailableLLMs_selectable _ _ Hin)
    as (_ & llm & Hget & _ & Hmodel & Hkey).
  exists llm. split; [exact Hget|]. split; [exact Hmodel|].
  vm_compute in Hget. injection Hget as <-. reflexivity.
Defined.

(** X14.  A key set to the empty string counts as no key: the service
    started with it is the service started without the variable. *)
Theorem initializeLLMs_empty_key (e : gmap string jsstring) :
  initializeLLMs (<["OPENAI_API_KEY" := []]> e)
  = initializeLLMs (delete "OPENAI_API_KEY" e)
  /\ initializeLLMs (<["ANTHROPIC_API_KEY" := []]> e)
     = initializeLLMs (delete "ANTHROPIC_API_KEY" e).
Proof.
  unfold initializeLLMs, envTruthy. split.
  - rewrite lookup_insert_eq, lookup_delete_eq.
    rewrite lookup_insert_ne, lookup_delete_ne by discriminate.
    reflexivity.
  - rewrite lookup_insert_eq, lookup_delete_eq.
    rewrite lookup_insert_ne, lookup_delete_ne by discriminate.
    reflexivity.
Qed.

(** X15.  The listing names each initialized backend once, OpenAI before
    Anthropic, and names no backend that was not initialized. *)
Theorem getAvailableLLMs_listing (svc : Service) :
  map llm_id (getAvailableLLMs svc)
  = match openaiLLM svc with
    | Some _ => [str "openai"]
    | None => []
    end
    ++ match anthropicLLM svc with
       | Some _ => [str "anthropic"]
       | None => []
       end
  /\ NoDup (map llm_id (getAvailableLLMs svc))
  /\ length (getAvailableLLMs svc) <= 2
  /\ Forall (fun d => llm_isAvailable d = true) (getAvailableLLMs svc).
Proof.
  unfold getAvailableLLMs.
  destruct (openaiLLM svc), (anthropicLLM svc); cbn [app map llm_id length];
    (split; [reflexivity|]); (split; [|split; [lia|repeat constructor]]).
  - apply (bool_decide_unpack _). vm_compute. exact I.
  - apply (bool_decide_unpack _). vm_compute. exact I.
  - apply (bool_decide_unpack _). vm_compute. exact I.
  - constructor.
Qed.

End RegistryMore.

(** ** Front end: the connection selector *)

Section Selector.
Import Js ConnectionSelector.

Lemma head_filter_split (f : Connection -> bool) (l : list Connection)
  (c : Connection) :
  head (List.filter f l) = Some c ->
  exists before after,
    l = before ++ c :: after
    /\ Forall (fun x => f x = false) before /\ f c = true.
Proof.
  induction l as [|x l IH]; [discriminate|].
  cbn [List.filter]. destruct (f x) eqn:Hx.
  - intros [= <-]. exists [], l. repeat split; [constructor|exact Hx].
  - intros H. destruct (IH H) as (before & after & -> & Hb & Hc).
    exists (x :: before), after. repeat split; [constructor|]; assumption.
Qed.

(** X16.  When the selector picks a connection by itself, nothing was
    selected before, and the connection picked is active and is the first
    active one of the list. *)
Theorem autoSelect_first_active (selectedConnectionId : option jsstring)
  (connectionsData : option (list Connection)) (picked : jsstring) :
  autoSelect selectedConnectionId connectionsData = Some picked ->
  (selectedConnectionId = None \/ selectedConnectionId = Some [])
  /\ exists before connection after,
      default [] connectionsData = before ++ connection :: after
      /\ Forall (fun c => isActive c = false) before
      /\ isActive connection = true
      /\ _id connection = picked.
Proof.
  unfold autoSelect.
  destruct (negb (truthy (default [] selectedConnectionId))) eqn:Hs;
    [|discriminate].
  destruct (0 <? length (activeConnections connectionsData));
    [|discriminate].
  cbn [andb]. intros H. split.
  - destruct selectedConnectionId as [[|c s]|]; auto. discriminate Hs.
  - unfold activeConnections in H.
    destruct (head (List.filter (fun connection => isActive connection)
                      (default [] connectionsData))) as [c|] eqn:Hh;
      [|discriminate H].
    injection H as <-.
    destruct (head_filter_split _ _ _ Hh) as (before & after & Hl & Hb & Hc).
    exists before, c, after. repeat split; assumption.
Qed.

Lemma autoSelect_first_active_witness :
  autoSelect None (Some MoreExamples.threeConnections) = Some (str "c2")
  /\ exists before connection after,
      MoreExamples.threeConnections = before ++ connection :: after
      /\ Forall (fun c => isActive c = false) before
      /\ isActive connection = true
      /\ _id connection = str "c2".
Proof.
  assert (H : autoSelect None (Some MoreExamples.threeConnections)
              = Some (str "c2")) by reflexivity.
  split; [exact H|].
  exact (proj2 (autoSelect_first_active None
                  (Some MoreExamples.threeConnections) (str "c2") H)).
Defined.

(** X17.  The value the select shows agrees with the selection: a
    selection that is present is shown as it is and nothing is picked;
    without one, the value shown is the identifier picked, or nothing when
    no connection is active or the picked identifier is empty. *)
Theorem selectValue_agrees (selectedConnectionId : option jsstring)
  (connectionsData : option (list Connection)) :
  match selectedConnectionId with
  | Some (c :: s) =>
      selectValue selectedConnectionId connectionsData = Some (c :: s)
      /\ autoSelect selectedConnectionId connectionsData = None
  | _ =>
      match autoSelect selectedConnectionId connectionsData with
      | Some (c :: s) =>
          selectValue selectedConnectionId connectionsData = Some (c :: s)
      | Some [] => selectValue selectedConnectionId connectionsData = None
      | None =>
          selectValue selectedConnectionId connectionsData = None
          /\ activeConnections connectionsData = []
      end
  end.
Proof.
  unfold selectValue, autoSelect.
  destruct selectedConnectionId as [[|c s]|]; cbn [default truthy negb andb];
    try (split; reflexivity);
    destruct (activeConnections connectionsData) as [|x l];
    cbn [length head fmap option_fmap option_map Nat.ltb Nat.leb];
    try (split; reflexivity);
    destruct (_id x); reflexivity.
Qed.

End Selector.

(** ** Front end: the thread panel *)

Section Panel.
Import Js ThreadPanel.

Lemma progress_count (p : ThreadPanelProps) (l : list Message) (k : nat) :
  k + length l = length (messages p) ->
  length (List.filter (fun b => bool_decide (is_Some (progress b)))
            (imap (fun i => messageBubble p (k + i)) l))
  = if showProgress p
    then match last l with
         | Some {| msg_type := assistant |} => 1
         | _ => 0
         end
    else 0.
Proof.
  revert k. induction l as [|m l IH]; intros k Hk.
  - destruct (showProgress p); reflexivity.
  - rewrite imap_cons. cbn [List.filter].
    rewrite (imap_ext _ (fun i => messageBubble p (S k + i)) l)
      by (intros i x _; cbn; f_equal; lia).
    pose proof (IH (S k) ltac:(cbn [length] in Hk; lia)) as Ht.
    destruct l as [|m' l'].
    + cbn [imap List.filter length]. unfold messageBubble. cbn [progress].
      replace (k + 0 =? length (messages p) - 1) with true
        by (symmetry; apply Nat.eqb_eq; cbn [length] in Hk; lia).
      destruct (showProgress p), m as [[] ? ? ? ? ?]; reflexivity.
    + assert (Hc : bool_decide
                     (is_Some (progress (messageBubble p (k + 0) m)))
                   = false).
      { unfold messageBubble. cbn [progress].
        replace (k + 0 =? length (messages p) - 1) with false
          by (symmetry; apply Nat.eqb_neq; cbn [length] in Hk; lia).
        rewrite andb_false_r. reflexivity. }
      rewrite Hc, Ht. reflexivity.
Qed.

(** X18.  With no message the container shows the placeholder and no
    progress, also while processing.  With messages it shows one bubble
    per message, plus the processing bubble while processing; progress is
    then shown once, or twice when the last message is the assistant's,
    and never when not processing. *)
Theorem messagesContainer_progress (p : ThreadPanelProps) (now : jsstring) :
  (messages p = [] -> messagesContainer p now = EmptyThread)
  /\ (messages p <> [] ->
      length (bubblesOf (messagesContainer p now))
      = length (messages p) + (if showProgress p then 1 else 0))
  /\ progressShown (messagesContainer p now)
     = if showProgress p
       then match last (messages p) with
            | Some {| msg_type := assistant |} => 2
            | Some {| msg_type := user |} => 1
            | None => 0
            end
       else 0.
Proof.
  unfold messagesContainer, progressShown.
  destruct (messages p) as [|m l] eqn:Hm.
  - split; [reflexivity|]. split; [contradiction|].
    destruct (showProgress p); reflexivity.
  - split; [discriminate|]. rewrite <- Hm.
    replace (length (messages p) =? 0) with false
      by (rewrite Hm; reflexivity).
    cbn [bubblesOf]. split.
    + intros _. rewrite length_app, length_imap.
      destruct (showProgress p); reflexivity.
    + rewrite List.filter_app, length_app.
      pose proof (progress_count p (messages p) 0 eq_refl) as Hc.
      change (fun i => messageBubble p (0 + i)) with (messageBubble p) in Hc.
      rewrite Hc.
      destruct (showProgress p); [|reflexivity].
      destruct (last (messages p)) as [[[] ? ? ? ? ?]|] eqn:Hl;
        try reflexivity.
      rewrite Hm in Hl. apply last_None in Hl. discriminate Hl.
Qed.

(** X19.  The bubbles follow the messages in order, each keyed by its
    message's identifier, and a bubble is marked selected exactly when
    its message's interaction identifier is the selected one; so when no
    interaction is selected, the messages that have none are all marked
    selected. *)
Theorem messagesContainer_bubbles (p : ThreadPanelProps) (now : jsstring)
  (index : nat) (message : Message) :
  messages p !! index = Some message ->
  exists bubble,
    bubblesOf (messagesContainer p now) !! index = Some bubble
    /\ bubble_message bubble = message
    /\ key bubble = Some (msg_id message)
    /\ (isSelected bubble = Some true
        <-> interactionId message = selectedInteractionId p)
    /\ (selectedInteractionId p = None -> interactionId message = None ->
        isSelected bubble = Some true).
Proof.
  intros Hi. exists (messageBubble p index message).
  split; [|split; [reflexivity|split; [reflexivity|split]]].
  - unfold messagesContainer.
    destruct (messages p) as [|m l] eqn:Hm; [discriminate Hi|].
    rewrite <- Hm. replace (length (messages p) =? 0) with false
      by (rewrite Hm; reflexivity).
    cbn [bubblesOf]. rewrite lookup_app_l.
    + rewrite list_lookup_imap, Hm, Hi. reflexivity.
    + rewrite length_imap. rewrite Hm. apply lookup_lt_Some in Hi. exact Hi.
  - cbn [messageBubble isSelected]. split.
    + intros [= H]. apply bool_decide_eq_true in H. exact H.
    + intros H. f_equal. apply bool_decide_eq_true. exact H.
  - intros Hs Hn. cbn [messageBubble isSelected]. f_equal.
    apply bool_decide_eq_true. congruence.
Qed.

Lemma messagesContainer_bubbles_witness :
  exists bubble,
    bubblesOf (messagesContainer
                 (MoreExamples.processingPanel
                    [MoreExamples.question; MoreExamples.answer])
                 (str "2025-11-22T10:00:06.000Z")) !! 0
    = Some bubble
    /\ key bubble = Some (str "m1")
    /\ isSelected bubble = Some true.
Proof.
  destruct (messagesContainer_bubbles
              (MoreExamples.processingPanel
                 [MoreExamples.question; MoreExamples.answer])
              (str "2025-11-22T10:00:06.000Z") 0 MoreExamples.question
              eq_refl)
    as (bubble & Hb & _ & Hk & _ & Hsel).
  exists bubble. split; [exact Hb|]. split; [exact Hk|].
  apply Hsel; reflexivity.
Defined.

End Panel.

Section PanelExamples.
Import Js ThreadPanel.

Lemma messagesContainer_progress_witness :
  messagesContainer (MoreExamples.processingPanel [])
    (str "2025-11-22T10:00:06.000Z")
  = EmptyThread
  /\ length (bubblesOf
               (messagesContainer
                  (MoreExamples.processingPanel
                     [MoreExamples.question; MoreExamples.answer])
                  (str "2025-11-22T10:00:06.000Z")))
     = 3
  /\ progressShown
       (messagesContainer
          (MoreExamples.processingPanel
             [MoreExamples.question; MoreExamples.answer])
          (str "2025-11-22T10:00:06.000Z"))
     = 2.
Proof.
  split; [|split].
  - exact (proj1 (messagesContainer_progress
                    (MoreExamples.processingPanel [])
                    (str "2025-11-22T10:00:06.000Z")) eq_refl).
  - apply (proj1 (proj2 (messagesContainer_progress
                           (MoreExamples.processingPanel
                              [MoreExamples.question; MoreExamples.answer])
                           (str "2025-11-22T10:00:06.000Z")))).
    discriminate.
  - exact (proj2 (proj2 (messagesContainer_progress
                           (MoreExamples.processingPanel
                              [MoreExamples.question; MoreExamples.answer])
                           (str "2025-11-22T10:00:06.000Z")))).
Defined.

End PanelExamples.

(** ** The tool function as a whole *)

Section ToolFunction.
Import Js Eff ExcelExport.

(** X20.  Without a file name, or with an empty one, the file is named
    after the data-source label and the first ten units of the date,
    followed by the time stamp and the extension (when neither the label
    nor the date holds a dot). *)
Theorem finalFilenameOf_default (rt : Runtime) (args : Args) :
  filename args = None \/ filename args = Some [] ->
  Facts.dot ∉ dataSourceLabel (env rt) ->
  Facts.dot ∉ slice0 10 (dateIso rt) ->
  finalFilenameOf rt args
  = safeFileUnits
      (str "report_" ++ dataSourceLabel (env rt) ++ str "_"
       ++ slice0 10 (dateIso rt) ++ str "_" ++ ofInt (dateMs rt)
       ++ str ".xlsx").
Proof.
  intros Hf Hl Hd. unfold finalFilenameOf.
  assert (Hn : orDefault (filename args) (defaultNameOf rt)
               = (str "report_" ++ dataSourceLabel (env rt) ++ str "_"
                  ++ slice0 10 (dateIso rt)) ++ str ".xlsx").
  { unfold defaultNameOf. cbv zeta. rewrite <- !(app_assoc (A:=ascii)).
    destruct Hf as [-> | ->]; reflexivity. }
  assert (Hs : Facts.dot ∉ str "report_" ++ dataSourceLabel (env rt)
                           ++ str "_" ++ slice0 10 (dateIso rt)).
  { intros Hin. repeat (apply elem_of_app in Hin as [Hin|Hin]);
      try contradiction.
    - vm_compute in Hin.
      repeat (apply elem_of_cons in Hin as [Hin|Hin]; [discriminate Hin|]).
      apply elem_of_nil in Hin. exact Hin.
    - apply list_elem_of_singleton in Hin. discriminate Hin. }
  rewrite Hn. unfold sanitizeFilename.
  rewrite endsWith_xlsx_app, (split_xlsx_stem _ Hs).
  cbn [default]. unfold id. rewrite <- !app_assoc. reflexivity.
Qed.

Lemma finalFilenameOf_default_witness :
  finalFilenameOf (Examples.runtimeFor "sales") Examples.oneRow
  = str "report_sales_2025-11-22_1763805600000.xlsx".
Proof.
  assert (Hl : Facts.dot ∉ dataSourceLabel (env (Examples.runtimeFor "sales"))).
  { apply (bool_decide_unpack _). vm_compute. exact I. }
  assert (Hd : Facts.dot ∉ slice0 10 (dateIso (Examples.runtimeFor "sales"))).
  { apply (bool_decide_unpack _). vm_compute. exact I. }
  rewrite (finalFilenameOf_default (Examples.runtimeFor "sales")
             Examples.oneRow (or_introl eq_refl) Hl Hd).
  vm_compute. reflexivity.
Defined.

(** On every argument record and in every surrounding the tool function
    returns a text and throws nothing.  It calls nothing but object
    storage and the timer: no call at all, or one to three uploads of one
    command with the waits between them. *)
Theorem func_outcome (rt : Runtime) (args : Args) :
  exists msg,
    fst (exec (func rt args)) = Returned msg
    /\ (snd (exec (func rt args)) = []
        \/ exists buffer n,
            (n = 1 \/ n = 3 \/ n = 5)
            /\ snd (exec (func rt args))
               = take n (Spec.threeAttempts
                           (putObjectCommandOf rt args buffer))).
Proof.
  destruct (valueTruthy (data args)) eqn:Ht.
  2:{ exists noDataMessage. unfold exec, func, tryCatch. rewrite Ht.
      split; [reflexivity|left; reflexivity]. }
  destruct (negb (isArray (data args)) || (arrayLength (data args) =? 0))
    eqn:Ha.
  { exists notArrayMessage. unfold exec, func, tryCatch. rewrite Ht, Ha.
    split; [reflexivity|left; reflexivity]. }
  destruct (xlsxWrite rt (data args) (sanitizeSheetName (sheetName args)))
    as [e|buffer] eqn:Hx.
  { exists (failedMessage e). unfold exec, func, tryCatch, bind.
    rewrite Ht, Ha. cbn [negb]. cbv beta iota. rewrite Hx.
    split; [reflexivity|left; reflexivity]. }
  destruct (tooLarge buffer) eqn:Hl.
  { exists (tooLargeMessage buffer). unfold exec, func, tryCatch, bind.
    rewrite Ht, Ha. cbn [negb]. cbv beta iota. rewrite Hx.
    unfold liftSum, ret. cbv beta iota. rewrite Hl.
    split; [reflexivity|left; reflexivity]. }
  assert (Hup : Facts.uploadable rt args buffer).
  { split; [|split; [exact Hx|]].
    - destruct (data args) as [| | | | | |[|row rows]|]; try discriminate Ha.
      eauto.
    - unfold tooLarge in Hl. apply N.ltb_ge in Hl. lia. }
  rewrite (func_upload rt args buffer Hup), uploadLoop_cases.
  destruct (s3Send rt 0 (putObjectCommandOf rt args buffer));
    [destruct (s3Send rt 1 (putObjectCommandOf rt args buffer));
     [destruct (s3Send rt 2 (putObjectCommandOf rt args buffer))|]|];
    eexists; (split; [reflexivity|right; exists buffer]).
  - exists 5. split; [tauto|reflexivity].
  - exists 5. split; [tauto|reflexivity].
  - exists 3. split; [tauto|reflexivity].
  - exists 1. split; [tauto|reflexivity].
Qed.

End ToolFunction.

Section RegistryExamples.
Import Js Eff LangChainService.

Lemma getLLM_undefined_witness :
  getLLM (initializeLLMs ∅) (Some (str "openai")) = None
  /\ anthropicLLM (initializeLLMs MoreExamples.bothKeys)
     = Some {| anthropic_model := str "claude-3-haiku-20240307";
               anthropic_temperature := 0;
               anthropic_apiKey := str "sk-two";
               anthropic_provider := str "anthropic" |}.
Proof.
  split.
  - apply (proj1 (getLLM_undefined (initializeLLMs ∅)
                    (Some (str "openai")))).
    split; reflexivity.
  - exact (proj2 (getLLM_undefined (initializeLLMs MoreExamples.bothKeys)
                    (Some (str "anthropic")))
             (Anthropic {| anthropic_model := str "claude-3-haiku-20240307";
                           anthropic_temperature := 0;
                           anthropic_apiKey := str "sk-two";
                           anthropic_provider := str "anthropic" |})
             eq_refl).
Defined.

End RegistryExamples.

(** * Revised statements *)

(** ** Idempotence of the sanitizers, exactly *)

Section IdempotenceExactly.
Import Js ExcelExport ExportInvocation.

Lemma dropWhile_fixed_head (p : ascii -> bool) (s : jsstring) (c : ascii) :
  dropWhile p s = s -> head s = Some c -> p c = false.
Proof.
  intros Hs Hh. apply (dropWhile_head p s). rewrite Hs. exact Hh.
Qed.

Lemma trimEnd_fixed_iff (s : jsstring) :
  trimEnd s = s <-> forall c, last s = Some c -> isWhiteSpace c = false.
Proof.
  unfold trimEnd. split.
  - intros Hs c Hc. apply (dropWhile_fixed_head isWhiteSpace (reverse s)).
    + apply (f_equal reverse) in Hs. rewrite reverse_involutive in Hs.
      exact Hs.
    + rewrite head_reverse. exact Hc.
  - intros H. rewrite dropWhile_fixed; [apply reverse_involutive|].
    intros c Hc. rewrite head_reverse in Hc. exact (H c Hc).
Qed.

(** A sanitized sheet name starts with a unit that is not white space. *)
Lemma sanitizeSheetName_head (name : option jsstring) :
  forall c, head (sanitizeSheetName name) = Some c -> isWhiteSpace c = false.
Proof.
  unfold sanitizeSheetName, slice0.
  destruct (cleanedSheetName name) as [|d r] eqn:Hc.
  - intros c [= <-]. reflexivity.
  - intros c [= <-].
    apply (trim_head (replaceClass invalidSheetUnit " "%char
                        (orDefault name (str "Report")))).
    fold (cleanedSheetName name). rewrite Hc. reflexivity.
Qed.

Lemma sanitizeSheetName_idempotent_iff (name : option jsstring) :
  sanitizeSheetName (Some (sanitizeSheetName name)) = sanitizeSheetName name
  <-> forall c, last (sanitizeSheetName name) = Some c ->
                isWhiteSpace c = false.
Proof.
  rewrite sanitizeSheetName_twice. unfold trim.
  rewrite (trimStart_fixed _ (sanitizeSheetName_head name)).
  apply trimEnd_fixed_iff.
Qed.

Lemma splitFrom_nonempty (sep : jsstring) (skip : nat) (s : jsstring) :
  splitFrom sep skip s <> [].
Proof.
  revert skip. induction s as [|c r IH]; intros skip; [discriminate|].
  cbn [splitFrom]. destruct skip; [|apply IH].
  destruct (startsWith (c :: r) sep); [discriminate|].
  destruct (splitFrom sep 0 r); discriminate.
Qed.

(** The first piece of a split is the whole string, or is followed by the
    separator. *)
Lemma split_first_cases (sep s h : jsstring) :
  sep <> [] ->
  first (split sep s) = Some h ->
  h = s \/ exists rest, s = h ++ sep ++ rest.
Proof.
  intros Hsep. unfold split, first.
  destruct sep as [|c0 sep']; [contradiction|].
  set (sep := c0 :: sep'). revert h.
  induction s as [|c r IH]; intros h.
  - intros [= <-]. left. reflexivity.
  - cbn [splitFrom].
    destruct (startsWith (c :: r) sep) eqn:Hst.
    + intros [= <-]. right. unfold startsWith in Hst.
      apply bool_decide_eq_true in Hst as [k Hk]. exists k. exact Hk.
    + destruct (splitFrom sep 0 r) as [|h' t] eqn:Hsp.
      * exfalso. exact (splitFrom_nonempty sep 0 r Hsp).
      * intros [= <-]. destruct (IH h' eq_refl) as [-> | [rest ->]].
        -- left. reflexivity.
        -- right. exists rest. reflexivity.
Qed.

Lemma sanitizeFilename_stemOf (now : Z) (name : jsstring) :
  sanitizeFilename now name
  = safeFileUnits (stemOf name ++ str "_" ++ ofInt now ++ str ".xlsx").
Proof.
  unfold sanitizeFilename, stemOf.
  destruct (endsWith (toLowerCase name) (str ".xlsx")); reflexivity.
Qed.

(** The stem of a safe name is the name, or is followed in it by the
    extension. *)
Lemma stemOf_cases (f : jsstring) :
  stemOf f = f \/ exists rest, f = stemOf f ++ str ".xlsx" ++ rest.
Proof.
  unfold stemOf. destruct (endsWith (toLowerCase f) (str ".xlsx"));
    [|left; reflexivity].
  destruct (first (split (str ".xlsx") f)) as [h|] eqn:Hh.
  - cbn [default].
    assert (Hsep : str ".xlsx" <> []) by (cbn; discriminate).
    exact (split_first_cases (str ".xlsx") f h Hsep Hh).
  - exfalso.
    change (split (str ".xlsx") f) with (splitFrom (str ".xlsx") 0 f) in Hh.
    unfold first in Hh.
    destruct (splitFrom (str ".xlsx") 0 f) eqn:Hs; [|discriminate Hh].
    exact (splitFrom_nonempty _ _ _ Hs).
Qed.

Lemma replaceClass_app (cls : ascii -> bool) (r : ascii) (s t : jsstring) :
  replaceClass cls r (s ++ t) = replaceClass cls r s ++ replaceClass cls r t.
Proof. unfold replaceClass. apply map_app. Qed.

Lemma sanitizeFilename_idempotent_iff (now : Z) (file : jsstring) :
  sanitizeFilename now (sanitizeFilename now file) = sanitizeFilename now file
  <-> length (sanitizeFilename now file) = 200
      /\ stemOf (sanitizeFilename now file) = sanitizeFilename now file.
Proof.
  set (f := sanitizeFilename now file).
  assert (Hsafe : Forall (fun c => unsafeFileUnit c = false) f).
  { unfold f, sanitizeFilename. apply safeFileUnits_safe. }
  assert (Hlen : length f <= 200).
  { unfold f, sanitizeFilename. apply safeFileUnits_length. }
  rewrite (sanitizeFilename_stemOf now f).
  unfold safeFileUnits, slice0. rewrite replaceClass_app.
  set (tail := replaceClass unsafeFileUnit "_"%char
                 (str "_" ++ ofInt now ++ str ".xlsx")).
  assert (Htail : exists t, tail = "_"%char :: t).
  { eexists. reflexivity. }
  destruct Htail as [t Ht].
  split.
  - intros Heq. destruct (stemOf_cases f) as [Hst | [rest Hrest]].
    + split; [|exact Hst]. rewrite Hst in Heq.
      rewrite (replaceClass_fixed _ _ _ Hsafe) in Heq.
      apply (f_equal length) in Heq.
      rewrite length_take, length_app, Ht in Heq. cbn [length] in Heq. lia.
    + exfalso.
      assert (Hs : Forall (fun c => unsafeFileUnit c = false) (stemOf f)).
      { rewrite Hrest in Hsafe. apply Forall_app in Hsafe. apply Hsafe. }
      rewrite (replaceClass_fixed _ _ _ Hs), Ht in Heq.
      assert (Hl : length (stemOf f) + 5 <= 200).
      { apply (f_equal length) in Hrest.
        rewrite !length_app in Hrest. cbn [length str list_ascii_of_string]
          in Hrest. lia. }
      apply (f_equal (fun l => l !! length (stemOf f))) in Heq.
      cbv beta in Heq.
      rewrite lookup_take_lt in Heq by lia.
      assert (H1 : (stemOf f ++ "_"%char :: t) !! length (stemOf f)
                   = Some "_"%char)
        by (apply list_lookup_middle; reflexivity).
      assert (H2 : f !! length (stemOf f) = Some "."%char).
      { pose proof (f_equal (fun l => l !! length (stemOf f)) Hrest) as H2.
        cbv beta in H2. rewrite H2.
        change (str ".xlsx" ++ rest) with ("."%char :: (str "xlsx" ++ rest)).
        apply list_lookup_middle. reflexivity. }
      rewrite H1, H2 in Heq. discriminate Heq.
  - intros [Hl Hst]. rewrite Hst, (replaceClass_fixed _ _ _ Hsafe).
    rewrite <- Hl. rewrite take_app_length. reflexivity.
Qed.

(** C6, as the code has it.  Sanitizing a sheet name a second time gives
    the same name exactly when the sanitized name does not end in white
    space.  Sanitizing a file name a second time, at the same clock value,
    gives the same name exactly when the sanitized name is 200 units long
    and nothing of it is cut off in front of the time stamp; a sanitized
    name shorter than 200 units is always changed by a second pass. *)
Theorem sanitize_idempotent_iff (name : option jsstring) (file : jsstring)
  (now : Z) :
  (sanitizeSheetName (Some (sanitizeSheetName name)) = sanitizeSheetName name
   <-> forall c, last (sanitizeSheetName name) = Some c ->
                 isWhiteSpace c = false)
  /\ (sanitizeFilename now (sanitizeFilename now file)
      = sanitizeFilename now file
      <-> length (sanitizeFilename now file) = 200
          /\ stemOf (sanitizeFilename now file) = sanitizeFilename now file)
  /\ (length (sanitizeFilename now file) < 200 ->
      sanitizeFilename now (sanitizeFilename now file)
      <> sanitizeFilename now file).
Proof.
  split; [apply sanitizeSheetName_idempotent_iff|].
  split; [apply sanitizeFilename_idempotent_iff|].
  intros Hlt Heq. apply sanitizeFilename_idempotent_iff in Heq as [Hl _]. lia.
Qed.

Lemma sanitize_idempotent_iff_witness :
  sanitizeSheetName
    (Some (sanitizeSheetName (Some (str " Q3: sales/region "))))
  = sanitizeSheetName (Some (str " Q3: sales/region "))
  /\ sanitizeFilename 1763805600000
       (sanitizeFilename 1763805600000 InvocationExamples.longName)
     = sanitizeFilename 1763805600000 InvocationExamples.longName
  /\ sanitizeFilename 1763805600000
       (sanitizeFilename 1763805600000 (str "q3"))
     <> sanitizeFilename 1763805600000 (str "q3").
Proof.
  destruct (sanitize_idempotent_iff (Some (str " Q3: sales/region "))
              InvocationExamples.longName 1763805600000)
    as (Hsheet & Hfile & _).
  destruct (sanitize_idempotent_iff None (str "q3") 1763805600000)
    as (_ & _ & Hshort).
  split; [|split].
  - apply Hsheet. vm_compute. intros c [= <-]. reflexivity.
  - apply Hfile. split; vm_compute; reflexivity.
  - apply Hshort. vm_compute. lia.
Defined.

End IdempotenceExactly.

(** ** Invocations of the export tool *)

Section Invocation.
Import Js Eff LangChainService ExcelExport ExportInvocation.

(** The schema rejects an input whose [data] is missing, is no array or
    is an empty array. *)
Lemma schemaParse_malformed (input : Value) :
  Spec.malformedData (inputData input) -> schemaParse input = None.
Proof.
  unfold inputData, schemaParse.
  destruct input as [| | | | | | |fields]; try reflexivity.
  destruct (property (str "data") fields) as [| | | | | |rows|];
    try reflexivity.
  intros [H | [H | H]]; [discriminate H|discriminate H|].
  injection H as ->. reflexivity.
Qed.

(** What the schema accepts holds at least one row. *)
Lemma schemaParse_accepts (input : Value) (args : Args) :
  schemaParse input = Some args ->
  data args = inputData input
  /\ exists row rows, data args = Array (row :: rows).
Proof.
  unfold inputData, schemaParse.
  destruct input as [| | | | | | |fields]; try discriminate.
  destruct (property (str "data") fields) as [| | | | | |rows|];
    try discriminate.
  destruct (forallb isRecord rows && (1 <=? length rows)) eqn:Hr;
    [|discriminate].
  destruct (optionalString (property (str "filename") fields));
    [|discriminate].
  destruct (optionalString (property (str "sheetName") fields));
    [|discriminate].
  intros [= <-]. split; [reflexivity|].
  destruct rows as [|row rows].
  - rewrite andb_false_r in Hr. discriminate Hr.
  - eauto.
Qed.

(** C3, as the code has it.  When [data] is missing, is not an array or is
    an empty array, an invocation of the tool makes no call to the
    outside, so no upload, and does not reach the tool function: the
    input schema rejects the input and the invocation throws the schema
    error.  The tool function itself, called on such data, returns one of
    its two [Error: ] texts, throws nothing and makes no call to the
    outside. *)
Theorem excelExport_malformed_data (schemaError : Value -> Error)
  (typeError : Error) (rt : Runtime) (input : Value) :
  Spec.malformedData (inputData input) ->
  schemaParse input = None
  /\ exec (invoke schemaError typeError rt input)
     = (Thrown (schemaError input), [])
  /\ forall args,
      data args = inputData input ->
      exists msg,
        exec (funcCalled typeError rt (Some args)) = (Returned msg, [])
        /\ (msg = noDataMessage \/ msg = notArrayMessage)
        /\ prefix (str "Error: ") msg.
Proof.
  intros H. pose proof (schemaParse_malformed input H) as Hp.
  split; [exact Hp|]. split.
  - unfold exec, invoke. rewrite Hp. reflexivity.
  - intros args Hd. rewrite <- Hd in H.
    exact (func_malformed_data rt args H).
Qed.

End Invocation.

Section InvocationExamples.
Import Js Eff LangChainService ExcelExport ExportInvocation.

Lemma excelExport_malformed_data_witness :
  Spec.malformedData (inputData InvocationExamples.emptyDataInput)
  /\ exec (invoke InvocationExamples.schemaErrorOf
             InvocationExamples.typeErrorOf Examples.runtimeAlwaysFailing
             InvocationExamples.emptyDataInput)
     = (Thrown (InvocationExamples.schemaErrorOf
                  InvocationExamples.emptyDataInput), []).
Proof.
  assert (H : Spec.malformedData
                (inputData InvocationExamples.emptyDataInput))
    by (right; right; reflexivity).
  split; [exact H|].
  exact (proj1 (proj2 (excelExport_malformed_data
                         InvocationExamples.schemaErrorOf
                         InvocationExamples.typeErrorOf
                         Examples.runtimeAlwaysFailing
                         InvocationExamples.emptyDataInput H))).
Defined.

(** An invocation with an empty array of rows returns no text: it
    throws. *)
Lemma invoke_empty_data_throws :
  Spec.malformedData (inputData InvocationExamples.emptyDataInput)
  /\ exec (invoke InvocationExamples.schemaErrorOf
             InvocationExamples.typeErrorOf Examples.runtimeAlwaysFailing
             InvocationExamples.emptyDataInput)
     = (Thrown
          {| err_name := str "ToolInputParsingException";
             err_message :=
               str "Received tool input did not match expected schema" |},
        [])
  /\ forall msg,
      fst (exec (invoke InvocationExamples.schemaErrorOf
                   InvocationExamples.typeErrorOf
                   Examples.runtimeAlwaysFailing
                   InvocationExamples.emptyDataInput))
      <> Returned msg.
Proof.
  split; [right; right; reflexivity|].
  split; [reflexivity|]. intros msg. discriminate.
Qed.

(** An invocation the schema accepts runs the tool function. *)
Lemma invoke_one_row :
  exec (invoke InvocationExamples.schemaErrorOf
          InvocationExamples.typeErrorOf
          (Examples.runtimeFailing 0 Examples.smallWorkbook)
          InvocationExamples.oneRowInput)
  = exec (func (Examples.runtimeFailing 0 Examples.smallWorkbook)
            {| data := Array [Object [(str "status", Str (str "open"))]];
               filename := Some (str "q3");
               sheetName := None |}).
Proof. reflexivity. Qed.

End InvocationExamples.

(** ** The tool function as it is called *)

Section FunctionCalled.
Import Js Eff LangChainService ExcelExport ExportInvocation.

(** X21.  Called without arguments ([undefined] or [null]) the tool
    function throws the engine's [TypeError] before its [try] block, with
    no call to the outside.  Called with an argument record it returns a
    text and throws nothing, and it calls nothing but object storage and
    the timer: no call at all, or one to three uploads of one command with
    the waits between them.  An invocation through the tool either is
    rejected by the schema, with no call to the outside, or returns a
    text. *)
Theorem funcCalled_outcome (typeError : Error) (rt : Runtime) :
  exec (funcCalled typeError rt None) = (Thrown typeError, [])
  /\ (forall args,
       exists msg,
         fst (exec (funcCalled typeError rt (Some args))) = Returned msg
         /\ (snd (exec (funcCalled typeError rt (Some args))) = []
             \/ exists buffer n,
                 (n = 1 \/ n = 3 \/ n = 5)
                 /\ snd (exec (funcCalled typeError rt (Some args)))
                    = take n
                        [EvS3Send (putObjectCommandOf rt args buffer);
                         EvSetTimeout 2000;
                         EvS3Send (putObjectCommandOf rt args buffer);
                         EvSetTimeout 4000;
                         EvS3Send (putObjectCommandOf rt args buffer)]))
  /\ forall schemaError input,
      exec (invoke schemaError typeError rt input)
      = (Thrown (schemaError input), [])
      \/ exists msg,
          fst (exec (invoke schemaError typeError rt input)) = Returned msg.
Proof.
  split; [reflexivity|]. split.
  - intros args. exact (func_outcome rt args).
  - intros schemaError input. unfold invoke.
    destruct (schemaParse input) as [args|]; [right|left; reflexivity].
    destruct (func_outcome rt args) as (msg & Hmsg & _).
    exists msg. exact Hmsg.
Qed.

End FunctionCalled.

(** ** Object keys and the database of the request *)

Section ExportKeys.
Import Js Eff LangChainService ExcelExport ExportInvocation.

(** C8, as the code has it.  The object key is the report directory, the
    data-source label and the sanitized file name, joined by slashes,
    where the label is the [PG_DATABASE] setting of the process, or [db].
    Exports made under different labels get different keys, whatever
    their file names and time stamps.  The database of the request's
    connection has no part in the key: in one process, exports for
    different connections with the same arguments at the same clock value
    get the same key. *)
Theorem exportKey_namespaced (rt1 rt2 : Runtime)
  (config1 config2 : UserDatasourceConfig) (args1 args2 : Args)
  (buffer : Buffer) :
  exportKey rt1 config1 args1
  = str "reports/" ++ dataSourceLabel (env rt1) ++ str "/"
    ++ finalFilenameOf rt1 args1
  /\ dataSourceLabel (env rt1)
     = orDefault (env rt1 !! "PG_DATABASE") (str "db")
  /\ Key (putObjectCommandOf rt1 args1 buffer) = exportKey rt1 config1 args1
  /\ (dataSourceLabel (env rt1) <> dataSourceLabel (env rt2) ->
      exportKey rt1 config1 args1 <> exportKey rt2 config2 args2)
  /\ exportKey rt1 config2 args1 = exportKey rt1 config1 args1.
Proof.
  split; [reflexivity|]. split; [reflexivity|]. split; [reflexivity|].
  split; [|reflexivity].
  intros Hne Hk. apply Hne. unfold exportKey in Hk.
  apply (objectKeyOf_inj _ _ _ _
           (sanitizeFilename_no_slash _ _) (sanitizeFilename_no_slash _ _))
    in Hk.
  apply Hk.
Qed.

Lemma exportKey_namespaced_witness :
  dataSourceLabel (env (Examples.runtimeFor "sales"))
  <> dataSourceLabel (env (Examples.runtimeFor "hr"))
  /\ exportKey (Examples.runtimeFor "sales") Examples.shopConfig
       Examples.oneRow
     <> exportKey (Examples.runtimeFor "hr") Examples.shopConfig
          Examples.oneRow.
Proof.
  assert (Hne : dataSourceLabel (env (Examples.runtimeFor "sales"))
                <> dataSourceLabel (env (Examples.runtimeFor "hr"))).
  { vm_compute. discriminate. }
  split; [exact Hne|].
  exact (proj1 (proj2 (proj2 (proj2
           (exportKey_namespaced (Examples.runtimeFor "sales")
              (Examples.runtimeFor "hr") Examples.shopConfig
              Examples.shopConfig Examples.oneRow Examples.oneRow
              Examples.smallWorkbook)))) Hne).
Defined.

(** Two exports for different databases, made in one process with the
    same arguments at the same clock value, get the same object key. *)
Lemma exportKey_collides :
  database Examples.shopConfig <> database InvocationExamples.hrConfig
  /\ exportKey (Examples.runtimeFailing 0 Examples.smallWorkbook)
       Examples.shopConfig Examples.oneRow
     = str "reports/db/report_db_2025-11-22_1763805600000.xlsx"
  /\ exportKey (Examples.runtimeFailing 0 Examples.smallWorkbook)
       InvocationExamples.hrConfig Examples.oneRow
     = str "reports/db/report_db_2025-11-22_1763805600000.xlsx"
  /\ Key (putObjectCommandOf
            (Examples.runtimeFailing 0 Examples.smallWorkbook)
            Examples.oneRow Examples.smallWorkbook)
     = str "reports/db/report_db_2025-11-22_1763805600000.xlsx".
Proof.
  split; [vm_compute; discriminate|].
  repeat split; vm_compute; reflexivity.
Qed.

End ExportKeys.

(** ** The table list and the final connection *)

Section UnconfirmedTable.
Import Js Eff LangChainService.


End UnconfirmedTable.
